(** * The order / activation-key relay of [server/src/index.js]

    A shallow embedding of the four HTTP handlers of the server
    (register, create payment, OxaPay webhook, verify key), of the two
    in-memory [Map]s they share, and of the two helpers
    [verifyOxaPaySignature] and [generateActivationKey], followed by the
    properties of the order / key lifecycle.

    Conventions of the embedding.
    - A JavaScript value that comes out of a parsed JSON document is a
      [json]; [undefined] is the [None] of [jsval := option json].
    - Numbers are the safe integers, of absolute value below [2^53] (chat
      identifiers, invoice identifiers, whole amounts), carried as [Z];
      [String(n)] and [JSON.stringify(n)] are then the decimal numeral of
      [n].
    - A JavaScript string is the sequence of its UTF-8 bytes.
    - An object is the list of its own properties in enumeration order.
    - The clock ([new Date().toISOString()], [Date.now()]), the random
      bytes behind [uuidv4()] and the answer of the payment processor are
      explicit arguments of the handlers. *)

From Stdlib Require Import ZArith List String Ascii Bool Lia DecimalString.
Import ListNotations.

Set Warnings "-register-all".

Local Open Scope string_scope.
Local Open Scope Z_scope.

(** ** JavaScript values *)

Inductive json : Type :=
| JNull
| JBool (b : bool)
| JNum (z : Z)
| JStr (s : string)
| JArr (items : list json)
| JObj (props : list (string * json)).

Definition jsval : Type := option json.

Definition undefined : jsval := None.

(** The decimal numeral of an integer, as [Number.prototype.toString]
    prints it. *)
Definition decimal (z : Z) : string := NilZero.string_of_int (Z.to_int z).

(** [String(v)]: the abstract operation ToString. An array prints its
    elements separated by commas, [null] elements as the empty string. *)
Fixpoint ToString (v : json) : string :=
  match v with
  | JNull => "null"
  | JBool true => "true"
  | JBool false => "false"
  | JNum z => decimal z
  | JStr s => s
  | JArr items =>
      (fix join (l : list json) : string :=
         match l with
         | [] => ""
         | x :: r =>
             let sx := match x with JNull => "" | _ => ToString x end in
             match r with
             | [] => sx
             | _ :: _ => sx ++ "," ++ join r
             end
         end) items
  | JObj _ => "[object Object]"
  end.

(** [String(v)] on a value that may be [undefined]. *)
Definition String_ (v : jsval) : string :=
  match v with
  | None => "undefined"
  | Some j => ToString j
  end.

(** ToBoolean: what [!v] and [a || b] test. *)
Definition truthy (v : jsval) : bool :=
  match v with
  | None => false
  | Some JNull => false
  | Some (JBool b) => b
  | Some (JNum z) => negb (z =? 0)
  | Some (JStr s) => negb (String.eqb s "")
  | Some (JArr _) => true
  | Some (JObj _) => true
  end.

Fixpoint assoc {A : Type} (k : string) (l : list (string * A)) : option A :=
  match l with
  | [] => None
  | (k', a) :: r => if String.eqb k k' then Some a else assoc k r
  end.

(** Reading property [k] of a value that is neither [null] nor
    [undefined]: only objects carry the property names this program
    reads. *)
Definition prop (k : string) (v : json) : jsval :=
  match v with
  | JObj props => assoc k props
  | _ => None
  end.

(** Destructuring [const { k } = v]: returns [None] when [v] is [null] or
    [undefined] and the pattern raises a TypeError. *)
Definition destructure (v : jsval) : option json :=
  match v with
  | None => None
  | Some JNull => None
  | Some j => Some j
  end.

(** Optional chaining [v?.k]. *)
Definition opt_prop (k : string) (v : jsval) : jsval :=
  match destructure v with
  | None => None
  | Some j => prop k j
  end.

(** [body || {}] followed by a property read, as the handlers that guard
    their body do. *)
Definition body_prop (k : string) (body : jsval) : jsval :=
  if truthy body then opt_prop k body else None.

(** ** JSON.stringify

    Language model: the text [JSON.stringify] gives for a parsed JSON
    value, with no indentation. *)

Definition hexdigit (n : Z) : ascii :=
  match String.get (Z.to_nat n) "0123456789abcdef" with
  | Some c => c
  | None => "0"%char
  end.

Definition char_code (c : ascii) : Z := Z.of_N (N_of_ascii c).

Definition dquote : string := String (ascii_of_nat 34) "".

Definition escape_char (c : ascii) : string :=
  let n := char_code c in
  if n =? 34 then "\" ++ dquote
  else if n =? 92 then "\\"
  else if n =? 8 then "\b"
  else if n =? 9 then "\t"
  else if n =? 10 then "\n"
  else if n =? 12 then "\f"
  else if n =? 13 then "\r"
  else if n <? 32 then
    "\u00" ++ String (hexdigit (Z.shiftr n 4)) (String (hexdigit (Z.land n 15)) "")
  else String c "".

Fixpoint escape (s : string) : string :=
  match s with
  | EmptyString => ""
  | String c r => escape_char c ++ escape r
  end.

Definition QuoteJSONString (s : string) : string := dquote ++ escape s ++ dquote.

Fixpoint JSON_stringify (v : json) : string :=
  match v with
  | JNull => "null"
  | JBool true => "true"
  | JBool false => "false"
  | JNum z => decimal z
  | JStr s => QuoteJSONString s
  | JArr items =>
      "[" ++
      (fix elems (l : list json) : string :=
         match l with
         | [] => ""
         | x :: r =>
             match r with
             | [] => JSON_stringify x
             | _ :: _ => JSON_stringify x ++ "," ++ elems r
             end
         end) items ++ "]"
  | JObj props =>
      "{" ++
      (fix members (l : list (string * json)) : string :=
         match l with
         | [] => ""
         | (k, x) :: r =>
             let m := QuoteJSONString k ++ ":" ++ JSON_stringify x in
             match r with
             | [] => m
             | _ :: _ => m ++ "," ++ members r
             end
         end) props ++ "}"
  end.

(** [JSON.stringify(undefined)] is [undefined], not a string. *)
Definition JSON_stringify_val (v : jsval) : option string :=
  match v with
  | None => None
  | Some j => Some (JSON_stringify j)
  end.


(** ** SHA-256 and HMAC (FIPS 180-4, RFC 2104)

    Library model: what Node's
    [crypto.createHmac('sha256', key).update(text).digest('hex')]
    computes. Words are 32-bit integers carried as [Z]; every addition is
    reduced modulo [2^32]. *)

Module SHA256.

Local Open Scope list_scope.

Definition mask32 : Z := 2 ^ 32 - 1.

Definition add32 (x y : Z) : Z := Z.land (x + y) mask32.

Definition rotr (n x : Z) : Z :=
  Z.lor (Z.shiftr x n) (Z.land (Z.shiftl x (32 - n)) mask32).

Definition Ch (x y z : Z) : Z :=
  Z.lxor (Z.land x y) (Z.land (Z.lxor x mask32) z).

Definition Maj (x y z : Z) : Z :=
  Z.lxor (Z.lxor (Z.land x y) (Z.land x z)) (Z.land y z).

Definition Sum0 (x : Z) : Z := Z.lxor (Z.lxor (rotr 2 x) (rotr 13 x)) (rotr 22 x).
Definition Sum1 (x : Z) : Z := Z.lxor (Z.lxor (rotr 6 x) (rotr 11 x)) (rotr 25 x).
Definition sig0 (x : Z) : Z := Z.lxor (Z.lxor (rotr 7 x) (rotr 18 x)) (Z.shiftr x 3).
Definition sig1 (x : Z) : Z := Z.lxor (Z.lxor (rotr 17 x) (rotr 19 x)) (Z.shiftr x 10).

Definition primes : list Z :=
  [2; 3; 5; 7; 11; 13; 17; 19; 23; 29; 31; 37; 41; 43; 47; 53;
   59; 61; 67; 71; 73; 79; 83; 89; 97; 101; 103; 107; 109; 113; 127; 131;
   137; 139; 149; 151; 157; 163; 167; 173; 179; 181; 191; 193; 197; 199;
   211; 223; 227; 229; 233; 239; 241; 251; 257; 263; 269; 271; 277; 281;
   283; 293; 307; 311].

(** Integer cube root of a number below [2^108], one bit at a time. *)
Definition cbrt (n : Z) : Z :=
  fold_left
    (fun r b => let c := r + 2 ^ Z.of_nat b in if c * c * c <=? n then c else r)
    (rev (seq 0 36)) 0.

(** The round constants are the first 32 bits of the fractional parts of
    the cube roots of the first 64 primes; the initial hash value those of
    the square roots of the first 8. *)
Definition K : list Z :=
  Eval vm_compute in map (fun p => Z.land (cbrt (p * 2 ^ 96)) mask32) primes.

Definition H0 : list Z :=
  Eval vm_compute in
    map (fun p => Z.land (Z.sqrt (p * 2 ^ 64)) mask32) (firstn 8 primes).

Definition word (l : list Z) (i : nat) : Z := nth i l 0.

(** The message schedule: 16 words of the block, extended to 64. *)
Definition schedule (block : list Z) : list Z :=
  fold_left
    (fun w t =>
       w ++ [add32 (add32 (sig1 (word w (t - 2)%nat)) (word w (t - 7)%nat))
                   (add32 (sig0 (word w (t - 15)%nat)) (word w (t - 16)%nat))])
    (seq 16 48) block.

Definition round (s : list Z) (kw : Z * Z) : list Z :=
  match s with
  | [a; b; c; d; e; f; g; h] =>
      let t1 := add32 (add32 (add32 h (Sum1 e)) (add32 (Ch e f g) (fst kw))) (snd kw) in
      let t2 := add32 (Sum0 a) (Maj a b c) in
      [add32 t1 t2; a; b; c; add32 d t1; e; f; g]
  | _ => s
  end.

Fixpoint add_words (x y : list Z) : list Z :=
  match x, y with
  | a :: x', b :: y' => add32 a b :: add_words x' y'
  | _, _ => []
  end.

Definition compress (h : list Z) (block : list Z) : list Z :=
  add_words h (fold_left round (combine K (schedule block)) h).

(** Big-endian packing of bytes into 32-bit words, and back. *)
Fixpoint words_of_bytes (l : list Z) : list Z :=
  match l with
  | a :: b :: c :: d :: r =>
      (Z.shiftl a 24 + Z.shiftl b 16 + Z.shiftl c 8 + d) :: words_of_bytes r
  | _ => []
  end.

Definition bytes_of_word (w : Z) : list Z :=
  [Z.land (Z.shiftr w 24) 255; Z.land (Z.shiftr w 16) 255;
   Z.land (Z.shiftr w 8) 255; Z.land w 255].

Definition pad (msg : list Z) : list Z :=
  let len := Z.of_nat (List.length msg) in
  let bits := 8 * len in
  msg ++ [128] ++ repeat 0 (Z.to_nat ((55 - len) mod 64))
      ++ bytes_of_word (Z.shiftr bits 32) ++ bytes_of_word (Z.land bits mask32).

Fixpoint blocks (n : nat) (h : list Z) (ws : list Z) : list Z :=
  match n with
  | O => h
  | S n' => blocks n' (compress h (firstn 16 ws)) (skipn 16 ws)
  end.

Definition sha256 (msg : list Z) : list Z :=
  let ws := words_of_bytes (pad msg) in
  flat_map bytes_of_word (blocks (List.length ws / 16)%nat H0 ws).

Definition block_key (key : list Z) : list Z :=
  let k := if (64 <? Z.of_nat (List.length key)) then sha256 key else key in
  k ++ repeat 0 (64 - List.length k)%nat.

Definition hmac (key msg : list Z) : list Z :=
  let k := block_key key in
  sha256 (map (Z.lxor 92) k ++ sha256 (map (Z.lxor 54) k ++ msg)).

End SHA256.

Fixpoint bytes_of_string (s : string) : list Z :=
  match s with
  | EmptyString => []
  | String c r => char_code c :: bytes_of_string r
  end.

Fixpoint hex_of_bytes (l : list Z) : string :=
  match l with
  | [] => ""
  | b :: r => String (hexdigit (Z.shiftr b 4)) (String (hexdigit (Z.land b 15)) (hex_of_bytes r))
  end.

(** [crypto.createHmac('sha256', key).update(text).digest('hex')] *)
Definition hmac_sha256_hex (key text : string) : string :=
  hex_of_bytes (SHA256.hmac (bytes_of_string key) (bytes_of_string text)).

(** ** Activation keys

    Library model: [uuidv4()] of the uuid package, a dependency of the
    server (RFC 4122, section 4.4). Sixteen random bytes, the version
    nibble of byte 6 forced to 4 and the two top bits of byte 8 to [10],
    printed in lower-case hexadecimal as 8-4-4-4-12. [rnds] is the
    [Uint8Array] the random generator fills; its elements are bytes. *)

Definition u8 (rnds : list Z) (i : nat) : Z := Z.land (nth i rnds 0) 255.

Definition uuid_bytes (rnds : list Z) : list Z :=
  map (fun i =>
         if Nat.eqb i 6 then Z.lor (Z.land (u8 rnds i) 15) 64
         else if Nat.eqb i 8 then Z.lor (Z.land (u8 rnds i) 63) 128
         else u8 rnds i)
      (seq 0 16).

Definition unsafeStringify (b : list Z) : string :=
  hex_of_bytes (firstn 4 b) ++ "-" ++
  hex_of_bytes (firstn 2 (skipn 4 b)) ++ "-" ++
  hex_of_bytes (firstn 2 (skipn 6 b)) ++ "-" ++
  hex_of_bytes (firstn 2 (skipn 8 b)) ++ "-" ++
  hex_of_bytes (skipn 10 b).

Definition uuidv4 (rnds : list Z) : string := unsafeStringify (uuid_bytes rnds).

(** [s.replace(/-/g, '')] *)
Fixpoint remove_dashes (s : string) : string :=
  match s with
  | EmptyString => ""
  | String c r => if Ascii.eqb c "-" then remove_dashes r else String c (remove_dashes r)
  end.

(** [s.toUpperCase()] on ASCII text, which is all a UUID holds. *)
Definition upper_char (c : ascii) : ascii :=
  let n := char_code c in
  if (97 <=? n) && (n <=? 122) then ascii_of_N (Z.to_N (n - 32)) else c.

Fixpoint toUpperCase (s : string) : string :=
  match s with
  | EmptyString => ""
  | String c r => String (upper_char c) (toUpperCase r)
  end.

Definition generateActivationKey (rnds : list Z) : string :=
  toUpperCase (remove_dashes (uuidv4 rnds)).

(** ** The signature check

    The constant [OXAPAY_CALLBACK_SECRET] of the module is an argument: a
    string when configured. [providedSignature] is the value of the
    [x-oxapay-signature] header, a string or [undefined]. The result is
    [None] when the function raises: [JSON.stringify(undefined)] is
    [undefined], which [hmac.update] refuses with a TypeError. *)

Definition verifyOxaPaySignature
    (OXAPAY_CALLBACK_SECRET : option string)
    (payload : jsval) (providedSignature : option string) : option bool :=
  match OXAPAY_CALLBACK_SECRET with
  | None => Some true
  | Some secret =>
      if String.eqb secret "" then Some true
      else
        match JSON_stringify_val payload with
        | None => None
        | Some payloadString =>
            match providedSignature with
            | Some sig => Some (String.eqb (hmac_sha256_hex secret payloadString) sig)
            | None => Some false
            end
        end
  end.

(** ** The [Map] of JavaScript

    A [Map] is its list of entries in insertion order. Keys are compared
    with SameValueZero: primitives by value, objects and arrays by
    reference. Every object or array this program uses as a key is freshly
    parsed from a request or a processor answer, hence equal to no key
    already in a map. *)

Definition SameValueZero (a b : jsval) : bool :=
  match a, b with
  | None, None => true
  | Some JNull, Some JNull => true
  | Some (JBool x), Some (JBool y) => Bool.eqb x y
  | Some (JNum x), Some (JNum y) => x =? y
  | Some (JStr x), Some (JStr y) => String.eqb x y
  | _, _ => false
  end.

Section JsMap.

Context {V : Type}.

Definition jsmap : Type := list (jsval * V).

Fixpoint map_get (k : jsval) (m : jsmap) : option V :=
  match m with
  | [] => None
  | (k', v) :: r => if SameValueZero k' k then Some v else map_get k r
  end.

Definition map_has (k : jsval) (m : jsmap) : bool :=
  match map_get k m with
  | Some _ => true
  | None => false
  end.

(** [m.set(k, v)]: the value of an existing entry is replaced where it
    stands, a new entry goes to the end. *)
Fixpoint map_set (k : jsval) (v : V) (m : jsmap) : jsmap :=
  match m with
  | [] => [(k, v)]
  | (k', v') :: r =>
      if SameValueZero k' k then (k', v) :: r else (k', v') :: map_set k v r
  end.

(** [m.delete(k)]: the entry of [k], when there is one, is removed. *)
Fixpoint map_delete (k : jsval) (m : jsmap) : jsmap :=
  match m with
  | [] => []
  | (k', v') :: r =>
      if SameValueZero k' k then r else (k', v') :: map_delete k r
  end.

(** Number of entries whose key is [k]. *)
Fixpoint map_count (k : jsval) (m : jsmap) : nat :=
  match m with
  | [] => O
  | (k', _) :: r => ((if SameValueZero k' k then 1 else 0) + map_count k r)%nat
  end.

(** The representation invariant of a [Map]: no key occurs twice. *)
Definition map_wf (m : jsmap) : Prop := forall k, (map_count k m <= 1)%nat.

End JsMap.

Arguments jsmap V : clear implicits.

(** ** The two stores *)

(** The objects kept in [pendingOrders]: the one [register] writes and the
    one the payment route writes. *)
Inductive order : Type :=
| Registration (chatId : string) (username displayName : jsval) (registeredAt : string)
| Purchase (chatId : string) (packageId amount currency : jsval).

Definition order_chatId (o : order) : jsval :=
  match o with
  | Registration c _ _ _ => Some (JStr c)
  | Purchase c _ _ _ => Some (JStr c)
  end.

(** [orderInfo.packageId]: a registration has no such property. *)
Definition order_packageId (o : order) : jsval :=
  match o with
  | Registration _ _ _ _ => undefined
  | Purchase _ p _ _ => p
  end.

(** The objects kept in [activationKeys]. *)
Record keyInfo : Type := mkKeyInfo {
  key_chatId : jsval;
  key_packageId : jsval;
  key_createdAt : string
}.

Record state : Type := mkState {
  pendingOrders : jsmap order;
  activationKeys : jsmap keyInfo
}.

Definition empty_state : state := mkState [] [].

Definition state_wf (st : state) : Prop :=
  map_wf (pendingOrders st) /\ map_wf (activationKeys st).

(** ** Configuration and responses *)

(** The constants read from the environment or the configuration file;
    [bot] tells whether a Telegram bot was created (a token is set). *)
Record config : Type := mkConfig {
  PUBLIC_BASE_URL : jsval;
  OXAPAY_API_KEY : jsval;
  OXAPAY_MERCHANT_ID : jsval;
  OXAPAY_BASE_URL : jsval;
  OXAPAY_CALLBACK_SECRET : option string;
  bot : bool
}.

(** [res.status(code).json(body)]; an [undefined] property is left out by
    the serialisation. *)
Record response : Type := mkResponse {
  status : nat;
  body : list (string * jsval)
}.

Definition str (s : string) : jsval := Some (JStr s).

Definition ValidationError (msg : string) : response := mkResponse 400 [("error", str msg)].
Definition NotRegistered : response :=
  mkResponse 404 [("error", str "Telegram user not registered. Ask user to start the bot first.")].
Definition InvoiceCreationFailed : response :=
  mkResponse 500 [("error", str "Failed to create payment order")].
Definition InvalidSignature : response := mkResponse 401 [("error", str "Invalid signature")].
Definition Ignored : response :=
  mkResponse 202 [("status", str "ignored"); ("reason", str "payment not completed")].
Definition OrderNotFound : response := mkResponse 404 [("error", str "Order not found for invoice")].
Definition KeyNotFound : response := mkResponse 404 [("status", str "invalid")].
Definition OwnerMismatch : response := mkResponse 403 [("status", str "mismatch")].

(** What a handler does with a request: it answers, or an exception leaves
    it unanswered. *)
Inductive reply : Type :=
| Sent (r : response)
| Uncaught.

(** ** POST /api/telegram/register *)

Definition register (now : string) (req_body : jsval) (st : state) : reply * state :=
  let chatId := body_prop "chatId" req_body in
  let username := body_prop "username" req_body in
  let displayName := body_prop "displayName" req_body in
  if negb (truthy chatId) then
    (Sent (ValidationError "chatId is required"), st)
  else
    (Sent (mkResponse 200 [("status", str "registered")]),
     mkState
       (map_set (str (String_ chatId))
                (Registration (String_ chatId) username displayName now)
                (pendingOrders st))
       (activationKeys st)).

(** ** POST /api/payments/create *)

(** The answer of [axios.post]: an error (HTTP failure, network error,
    timeout), or [response.data]. *)
Inductive axios_result : Type :=
| AxiosError
| AxiosOk (response_data : jsval).

Fixpoint defined_props (l : list (string * jsval)) : list (string * json) :=
  match l with
  | [] => []
  | (k, Some v) :: r => (k, v) :: defined_props r
  | (_, None) :: r => defined_props r
  end.

(** The call [axios.post(url, data, { headers, timeout })] that asks the
    processor for an invoice. *)
Record axios_request : Type := mkAxiosRequest {
  url : string;
  data : json;
  headers : list (string * string);
  timeout : Z
}.

Definition invoice_request (cfg : config) (nowMs : Z)
    (chatId packageId amount currency : jsval) : axios_request :=
  mkAxiosRequest
    (String_ (OXAPAY_BASE_URL cfg) ++ "/merchant/invoice")
    (JObj (defined_props
      [("merchant", OXAPAY_MERCHANT_ID cfg);
       ("price_amount", amount);
       ("price_currency", currency);
       ("pay_currency", currency);
       ("order_id", str (String_ packageId ++ "-" ++ decimal nowMs));
       ("callback_url", str (String_ (PUBLIC_BASE_URL cfg) ++ "/api/oxapay/webhook"));
       ("description", str ("Activation for package " ++ String_ packageId));
       ("cancel_url", str (String_ (PUBLIC_BASE_URL cfg) ++ "/payment/cancel"));
       ("success_url", str (String_ (PUBLIC_BASE_URL cfg) ++ "/payment/success"));
       ("custom", Some (JObj (defined_props
          [("chatId", str (String_ chatId)); ("packageId", packageId)])))]))
    [("Content-Type", "application/json");
     ("Authorization", "Bearer " ++ String_ (OXAPAY_API_KEY cfg))]
    10000.

Definition createInvoice (cfg : config) (nowMs : Z)
    (processor : axios_request -> axios_result)
    (req_body : jsval) (st : state) : reply * state :=
  let chatId := body_prop "chatId" req_body in
  let packageId := body_prop "packageId" req_body in
  let amount := body_prop "amount" req_body in
  let currency := body_prop "currency" req_body in
  if negb (truthy chatId) || negb (truthy packageId)
     || negb (truthy amount) || negb (truthy currency) then
    (Sent (ValidationError "chatId, packageId, amount and currency are required"), st)
  else if negb (map_has (str (String_ chatId)) (pendingOrders st)) then
    (Sent NotRegistered, st)
  else
    match processor (invoice_request cfg nowMs chatId packageId amount currency) with
    | AxiosError => (Sent InvoiceCreationFailed, st)
    | AxiosOk data =>
        match destructure data with
        | None => (Sent InvoiceCreationFailed, st)
        | Some invoice =>
            (Sent (mkResponse 200 [("paymentUrl", prop "invoice_url" invoice);
                                   ("invoiceId", prop "invoice_id" invoice)]),
             mkState
               (map_set (prop "invoice_id" invoice)
                        (Purchase (String_ chatId) packageId amount currency)
                        (pendingOrders st))
               (activationKeys st))
        end
    end.

(** ** POST /api/oxapay/webhook *)

Definition newline : string := String (ascii_of_nat 10) "".

(** The message handed to [bot.sendMessage] (with [parse_mode]
    Markdown): the lines joined by a line feed. *)
Definition telegram_message (packageId : jsval) (key : string) : string :=
  "✅ *تم استقبال دفعتك بنجاح*" ++ newline ++
  "" ++ newline ++
  "الباقة: " ++ String_ packageId ++ newline ++
  "مفتاح التفعيل: `" ++ key ++ "`" ++ newline ++
  "" ++ newline ++
  "أرسل المفتاح داخل البوت لتفعيل اشتراكك. المفتاح يستخدم مرة واحدة فقط.".

(** [status !== 'completed'] *)
Definition is_completed (status : jsval) : bool :=
  match status with
  | Some (JStr s) => String.eqb s "completed"
  | _ => false
  end.

(** [pendingOrders.get(invoiceId) || pendingOrders.get(custom?.chatId)]:
    an order is an object, so the left operand is falsy exactly when the
    key is absent. *)
Definition resolve_order (invoiceId custom : jsval) (orders : jsmap order) : option order :=
  match map_get invoiceId orders with
  | Some o => Some o
  | None => map_get (opt_prop "chatId" custom) orders
  end.

(** The outcome of the webhook: the reply, the stores, and the Telegram
    message the handler tries to deliver (chat, text). A failed delivery is
    caught and logged and changes nothing else. *)
Record webhook_result : Type := mkWebhookResult {
  wh_reply : reply;
  wh_state : state;
  wh_message : option (jsval * string)
}.

Definition webhook (cfg : config) (now : string) (rnds : list Z)
    (signature : option string) (payload : jsval) (st : state) : webhook_result :=
  match verifyOxaPaySignature (OXAPAY_CALLBACK_SECRET cfg) payload signature with
  | None => mkWebhookResult Uncaught st None
  | Some false => mkWebhookResult (Sent InvalidSignature) st None
  | Some true =>
      match destructure payload with
      | None => mkWebhookResult Uncaught st None
      | Some p =>
          let status_ := prop "status" p in
          let invoiceId := prop "invoice_id" p in
          let custom := prop "custom" p in
          if negb (is_completed status_) then
            mkWebhookResult (Sent Ignored) st None
          else
            match resolve_order invoiceId custom (pendingOrders st) with
            | None => mkWebhookResult (Sent OrderNotFound) st None
            | Some orderInfo =>
                let key := generateActivationKey rnds in
                mkWebhookResult
                  (Sent (mkResponse 200 [("status", str "ok")]))
                  (mkState
                     (map_delete (order_chatId orderInfo)
                        (map_delete invoiceId (pendingOrders st)))
                     (map_set (str key)
                        (mkKeyInfo (order_chatId orderInfo) (order_packageId orderInfo) now)
                        (activationKeys st)))
                  (if bot cfg
                   then Some (order_chatId orderInfo,
                              telegram_message (order_packageId orderInfo) key)
                   else None)
            end
      end
  end.

(** ** POST /api/telegram/verify-key *)

Definition verifyKey (req_body : jsval) (st : state) : reply * state :=
  let chatId := body_prop "chatId" req_body in
  let activationKey := body_prop "activationKey" req_body in
  if negb (truthy chatId) || negb (truthy activationKey) then
    (Sent (ValidationError "chatId and activationKey are required"), st)
  else
    match map_get activationKey (activationKeys st) with
    | None => (Sent KeyNotFound, st)
    | Some info =>
        if negb (String.eqb (String_ (key_chatId info)) (String_ chatId)) then
          (Sent OwnerMismatch, st)
        else
          (Sent (mkResponse 200 [("status", str "valid");
                                 ("packageId", key_packageId info)]),
           mkState (pendingOrders st) (map_delete activationKey (activationKeys st)))
    end.

(** ** The requests of a run

    A run of the server is a sequence of requests; [reachable] collects the
    states the two stores go through, starting from two empty maps. *)

Inductive request : Type :=
| PostRegister (now : string) (req_body : jsval)
| PostPaymentsCreate (nowMs : Z) (processor : axios_request -> axios_result)
                     (req_body : jsval)
| PostWebhook (now : string) (rnds : list Z) (signature : option string) (payload : jsval)
| PostVerifyKey (req_body : jsval).

Definition handle (cfg : config) (rq : request) (st : state) : state :=
  match rq with
  | PostRegister now b => snd (register now b st)
  | PostPaymentsCreate nowMs processor b => snd (createInvoice cfg nowMs processor b st)
  | PostWebhook now rnds sg p => wh_state (webhook cfg now rnds sg p st)
  | PostVerifyKey b => snd (verifyKey b st)
  end.

Inductive reachable (cfg : config) : state -> Prop :=
| reachable_start : reachable cfg empty_state
| reachable_handle st rq : reachable cfg st -> reachable cfg (handle cfg rq st).

(** ** Character classes used in the statements *)

Definition is_digit (c : ascii) : bool :=
  (48 <=? char_code c) && (char_code c <=? 57).

Definition is_upper_alnum (c : ascii) : bool :=
  is_digit c || ((65 <=? char_code c) && (char_code c <=? 90)).

Definition is_lower_hex (c : ascii) : bool :=
  is_digit c || ((97 <=? char_code c) && (char_code c <=? 102)).

Definition is_dash (c : ascii) : bool := Ascii.eqb c "-".

Fixpoint all_chars (p : ascii -> bool) (s : string) : bool :=
  match s with
  | EmptyString => true
  | String c r => p c && all_chars p r
  end.

(** The canonical text of a UUID: lower-case hexadecimal digits in groups
    of 8, 4, 4, 4 and 12, with a dash between two groups. [hex_group n s]
    reads [n] digits off [s] and returns the rest. *)
Fixpoint hex_group (n : nat) (s : string) : option string :=
  match n, s with
  | O, _ => Some s
  | S n', String c r => if is_lower_hex c then hex_group n' r else None
  | S _, EmptyString => None
  end.

Definition dash_then (n : nat) (s : option string) : option string :=
  match s with
  | Some (String c r) => if is_dash c then hex_group n r else None
  | _ => None
  end.

Definition canonical_uuid (u : string) : bool :=
  match dash_then 12 (dash_then 4 (dash_then 4 (dash_then 4 (hex_group 8 u)))) with
  | Some EmptyString => true
  | _ => false
  end.

(** ** What the entries of a run look like *)

(** An order written by the payment route carries the package identifier
    the route has checked for presence. *)
Definition order_checked (o : order) : Prop :=
  match o with
  | Registration _ _ _ _ => True
  | Purchase _ packageId _ _ => truthy packageId = true
  end.

(** A key entry: a code as the generator prints it, owned by a chat
    identifier in string form. *)
Definition key_entry_owned (e : jsval * keyInfo) : Prop :=
  (exists rnds, fst e = str (generateActivationKey rnds)) /\
  (exists c, key_chatId (snd e) = str c).

Definition entries_ok (st : state) : Prop :=
  Forall (fun e => order_checked (snd e)) (pendingOrders st) /\
  Forall key_entry_owned (activationKeys st).

(** ** A sample run

    The end-to-end scenario: chat 123 starts the bot, asks for package
    [pro] at 10 USDT, the processor issues invoice INV1 and later reports
    it completed. *)

Module Scenario.

Definition cfg_open : config :=
  mkConfig (str "https://shop.example") (str "api-key") (str "merchant-1")
           (str "https://api.oxapay.com") None false.

Definition cfg_signed : config :=
  mkConfig (str "https://shop.example") (str "api-key") (str "merchant-1")
           (str "https://api.oxapay.com") (Some "s3cret") true.

Definition rnds : list Z := [1; 2; 3; 4; 5; 6; 7; 8; 9; 10; 11; 12; 13; 14; 15; 16].

Definition start : jsval :=
  Some (JObj [("chatId", JStr "123"); ("username", JStr "buyer");
              ("displayName", JStr "Buyer")]).

Definition buy : jsval :=
  Some (JObj [("chatId", JStr "123"); ("packageId", JStr "pro");
              ("amount", JNum 10); ("currency", JStr "USDT")]).

Definition processor_up (_ : axios_request) : axios_result :=
  AxiosOk (Some (JObj [("invoice_url", JStr "https://pay.example/INV1");
                       ("invoice_id", JStr "INV1")])).


Definition completed : json :=
  JObj [("status", JStr "completed"); ("invoice_id", JStr "INV1")].

Definition waiting : json :=
  JObj [("status", JStr "waiting"); ("invoice_id", JStr "INV1")].

Definition redeem (chatId : json) (key : string) : jsval :=
  Some (JObj [("chatId", chatId); ("activationKey", JStr key)]).

Definition registered : state := snd (register "2025-01-01T00:00:00.000Z" start empty_state).

Definition invoiced : state :=
  snd (createInvoice cfg_open 1735689600000 processor_up buy registered).

Definition paid : state :=
  wh_state (webhook cfg_open "2025-01-01T00:05:00.000Z" rnds None (Some completed) invoiced).

Definition key : string := generateActivationKey rnds.

End Scenario.

(** ** Loading the configuration

    [loadConfigFile] tries [config.local.json], [config.json] and
    [config.sample.json] in this order. What the file system holds for one
    candidate: no such file, a file whose reading or parsing raises (a
    warning is logged and the loop goes on), or a file that parses. *)

Inductive candidate : Type :=
| Absent
| Unparsable
| Parsed (content : json).

Fixpoint loadConfigFile (candidates : list candidate) : json :=
  match candidates with
  | [] => JObj []
  | Parsed content :: _ => content
  | _ :: rest => loadConfigFile rest
  end.

(** [s.split('.')] *)
Fixpoint split_dot (s : string) : list string :=
  match s with
  | EmptyString => [""]
  | String c r =>
      if Ascii.eqb c "." then "" :: split_dot r
      else match split_dot r with
           | h :: t => String c h :: t
           | [] => [String c ""]
           end
  end.

(** One step of the [reduce]:
    [acc && acc[key] !== undefined ? acc[key] : undefined]. The keys are
    those of the server's settings, none of which names a built-in
    property. *)
Definition path_step (acc : jsval) (key : string) : jsval :=
  if truthy acc then opt_prop key acc else undefined.

(** [a ?? b] *)
Definition nullish (a b : jsval) : jsval :=
  match a with
  | None => b
  | Some JNull => b
  | Some _ => a
  end.

(** [configValue(envKey, fallbackPath, defaultValue)]; [env] is
    [process.env] and [fileConfig] the result of [loadConfigFile]. *)
Definition configValue (env : string -> option string) (fileConfig : json)
    (envKey : string) (fallbackPath : option string) (defaultValue : jsval) : jsval :=
  let from_file :=
    match fallbackPath with
    | None => defaultValue
    | Some path =>
        if String.eqb path "" then defaultValue
        else nullish (fold_left path_step (split_dot path) (Some fileConfig)) defaultValue
    end in
  match env envKey with
  | Some v => if String.eqb v "" then from_file else str v
  | None => from_file
  end.

(** The settings the server reads at start: environment variable, path in
    the configuration file, default. *)
Definition settings : list (string * string * jsval) :=
  [("PORT", "port", Some (JNum 4000));
   ("PUBLIC_BASE_URL", "publicBaseUrl", undefined);
   ("OXAPAY_API_KEY", "oxapay.apiKey", undefined);
   ("OXAPAY_MERCHANT_ID", "oxapay.merchantId", undefined);
   ("OXAPAY_BASE_URL", "oxapay.baseUrl", str "https://api.oxapay.com");
   ("OXAPAY_CALLBACK_SECRET", "oxapay.callbackSecret", undefined);
   ("TELEGRAM_BOT_TOKEN", "telegram.botToken", undefined);
   ("ADMIN_CHAT_ID", "telegram.adminChatId", undefined)].

(** ** Notions used in the further properties *)

(** Reading a nested property, one key after the other. *)
Fixpoint get_path (keys : list string) (v : jsval) : jsval :=
  match keys with
  | [] => v
  | k :: r => get_path r (opt_prop k v)
  end.

Definition is_webhook (rq : request) : bool :=
  match rq with
  | PostWebhook _ _ _ _ => true
  | _ => false
  end.


Definition is_upper_code (s : string) : Prop :=
  String.length s = 32%nat /\ all_chars is_upper_alnum s = true.

(** * Properties *)

(** ** The embedded library functions on known values *)

Example sha256_empty :
  hex_of_bytes (SHA256.sha256 [])
  = "e3b0c44298fc1c149afbf4c8996fb92427ae41e4649b934ca495991b7852b855".
Proof. vm_compute. reflexivity. Qed.

Example sha256_abc :
  hex_of_bytes (SHA256.sha256 (bytes_of_string "abc"))
  = "ba7816bf8f01cfea414140de5dae2223b00361a396177a9cb410ff61f20015ad".
Proof. vm_compute. reflexivity. Qed.

Example sha256_two_blocks :
  hex_of_bytes (SHA256.sha256
    (bytes_of_string "abcdbcdecdefdefgefghfghighijhijkijkljklmklmnlmnomnopnopq"))
  = "248d6a61d20638b8e5c026930c3e6039a33ce45964ff2167f6ecedd419db06c1".
Proof. vm_compute. reflexivity. Qed.

(** RFC 4231, test case 2. *)
Example hmac_sha256_rfc4231 :
  hmac_sha256_hex "Jefe" "what do ya want for nothing?"
  = "5bdcc146bf60754e6a042426089575c75a003f089d2739839dec58b964ec3843".
Proof. vm_compute. reflexivity. Qed.

Example JSON_stringify_payload :
  JSON_stringify (JObj [("status", JStr "completed"); ("id", JNum (-42));
                        ("tags", JArr [JNull; JBool true])])
  = "{" ++ dquote ++ "status" ++ dquote ++ ":" ++ dquote ++ "completed" ++ dquote
    ++ "," ++ dquote ++ "id" ++ dquote ++ ":-42,"
    ++ dquote ++ "tags" ++ dquote ++ ":[null,true]}".
Proof. reflexivity. Qed.

Example String_of_values :
  String_ (Some (JNum 123)) = "123" /\
  String_ undefined = "undefined" /\
  String_ (Some (JArr [JNum 1; JNull; JArr [JStr "a"; JStr "b"]])) = "1,,a,b" /\
  String_ (Some (JObj [("chatId", JNum 1)])) = "[object Object]".
Proof. repeat split. Qed.

Example uuidv4_of_bytes :
  uuidv4 Scenario.rnds = "01020304-0506-4708-890a-0b0c0d0e0f10" /\
  generateActivationKey Scenario.rnds = "0102030405064708890A0B0C0D0E0F10".
Proof. split; reflexivity. Qed.

(** With the secret configured, the webhook goes on exactly for the HMAC of
    the payload's JSON text. *)
Example signed_webhook_accepted :
  wh_reply (webhook Scenario.cfg_signed "t" Scenario.rnds
              (Some "fab335376305e56b70695d3296d6518e48675a2d9cc725b1ac911fb92f32cf62")
              (Some Scenario.completed) Scenario.invoiced)
    = Sent (mkResponse 200 [("status", str "ok")]).
Proof. vm_compute. reflexivity. Qed.

(** ** SameValueZero and the map operations *)

Lemma SameValueZero_eq (a b : jsval) : SameValueZero a b = true -> a = b.
Proof.
  destruct a as [[| x | x | x | x | x]|], b as [[| y | y | y | y | y]|];
    simpl; try discriminate; intros H; try reflexivity.
  - apply Bool.eqb_prop in H. now subst.
  - apply Z.eqb_eq in H. now subst.
  - apply String.eqb_eq in H. now subst.
Qed.

Lemma SameValueZero_str (s : string) : SameValueZero (str s) (str s) = true.
Proof. simpl. apply String.eqb_refl. Qed.

Section JsMapFacts.

Context {V : Type}.
Implicit Types (m : jsmap V) (k : jsval) (v : V).

Lemma map_get_count_zero k m : map_get k m = None <-> map_count k m = O.
Proof.
  induction m as [| [k' v'] r IH]; simpl.
  - tauto.
  - destruct (SameValueZero k' k); simpl.
    + split; discriminate.
    + exact IH.
Qed.


Lemma map_count_set k v m k0 :
  map_count k0 (map_set k v m) =
  (map_count k0 m +
   (if map_has k m then 0 else if SameValueZero k k0 then 1 else 0))%nat.
Proof.
  unfold map_has. induction m as [| [k' v'] r IH]; simpl.
  - lia.
  - destruct (SameValueZero k' k) eqn:E; simpl.
    + lia.
    + rewrite IH. destruct (map_get k r); lia.
Qed.

Lemma map_count_delete_le k m k0 :
  (map_count k0 (map_delete k m) <= map_count k0 m)%nat.
Proof.
  induction m as [| [k' v'] r IH]; simpl.
  - lia.
  - destruct (SameValueZero k' k); simpl; lia.
Qed.

Lemma map_count_delete_same k m :
  map_count k (map_delete k m) = (map_count k m - 1)%nat.
Proof.
  induction m as [| [k' v'] r IH]; simpl.
  - reflexivity.
  - destruct (SameValueZero k' k) eqn:E; simpl.
    + lia.
    + rewrite E. simpl. exact IH.
Qed.

Lemma map_wf_nil : map_wf (@nil (jsval * V)).
Proof. intros k. simpl. lia. Qed.

Lemma map_wf_set k v m : map_wf m -> map_wf (map_set k v m).
Proof.
  intros W k0. rewrite map_count_set. specialize (W k0).
  unfold map_has. destruct (map_get k m) eqn:G; [lia |].
  destruct (SameValueZero k k0) eqn:E; [| lia].
  apply SameValueZero_eq in E. subst k0.
  apply map_get_count_zero in G. lia.
Qed.

Lemma map_wf_delete k m : map_wf m -> map_wf (map_delete k m).
Proof.
  intros W k0. specialize (W k0). pose proof (map_count_delete_le k m k0). lia.
Qed.

Lemma map_get_delete_same k m : map_wf m -> map_get k (map_delete k m) = None.
Proof.
  intros W. apply map_get_count_zero. rewrite map_count_delete_same.
  specialize (W k). lia.
Qed.

Lemma map_get_delete_none k k0 m :
  map_get k0 m = None -> map_get k0 (map_delete k m) = None.
Proof.
  rewrite !map_get_count_zero. pose proof (map_count_delete_le k m k0). lia.
Qed.

Lemma map_get_set_same k v m :
  SameValueZero k k = true -> map_get k (map_set k v m) = Some v.
Proof.
  intros R. induction m as [| [k' v'] r IH]; simpl.
  - now rewrite R.
  - destruct (SameValueZero k' k) eqn:E; simpl; rewrite E; [reflexivity | exact IH].
Qed.

Lemma map_get_set_other k v m k0 :
  SameValueZero k k0 = false -> map_get k0 (map_set k v m) = map_get k0 m.
Proof.
  intros N. induction m as [| [k' v'] r IH]; simpl.
  - now rewrite N.
  - destruct (SameValueZero k' k) eqn:E; simpl.
    + apply SameValueZero_eq in E. subst k'. now rewrite N.
    + now rewrite IH.
Qed.




End JsMapFacts.

(** ** The stores stay well formed *)

Ltac wf_cases :=
  unfold state_wf; simpl; split;
  solve [assumption | apply map_wf_set; assumption
         | apply map_wf_delete; assumption
         | apply map_wf_delete, map_wf_delete; assumption].

Lemma register_wf now b st : state_wf st -> state_wf (snd (register now b st)).
Proof.
  intros [Wo Wk]. unfold register.
  destruct (truthy (body_prop "chatId" b)); wf_cases.
Qed.

Lemma createInvoice_wf cfg nowMs processor b st :
  state_wf st -> state_wf (snd (createInvoice cfg nowMs processor b st)).
Proof.
  intros [Wo Wk]. unfold createInvoice.
  destruct (_ || _); [wf_cases |].
  destruct (negb _); [wf_cases |].
  destruct (processor _) as [| data]; [wf_cases |].
  destruct (destructure data); wf_cases.
Qed.

Lemma webhook_wf cfg now rnds sig payload st :
  state_wf st -> state_wf (wh_state (webhook cfg now rnds sig payload st)).
Proof.
  intros [Wo Wk]. unfold webhook.
  destruct (verifyOxaPaySignature _ _ _) as [[|] |]; [| wf_cases ..].
  destruct (destructure payload) as [p |]; [| wf_cases].
  destruct (negb _); [wf_cases |].
  destruct (resolve_order _ _ _); wf_cases.
Qed.

Lemma verifyKey_wf b st : state_wf st -> state_wf (snd (verifyKey b st)).
Proof.
  intros [Wo Wk]. unfold verifyKey.
  destruct (_ || _); [wf_cases |].
  destruct (map_get _ _) as [info |]; [| wf_cases].
  destruct (negb _); wf_cases.
Qed.

Lemma handle_wf cfg rq st : state_wf st -> state_wf (handle cfg rq st).
Proof.
  destruct rq; simpl;
    auto using register_wf, createInvoice_wf, webhook_wf, verifyKey_wf.
Qed.

(** Along every run, neither map holds a key twice. *)
Lemma reachable_wf cfg st : reachable cfg st -> state_wf st.
Proof.
  induction 1 as [| st rq _ IH].
  - split; apply map_wf_nil.
  - now apply handle_wf.
Qed.

Lemma scenario_reachable :
  reachable Scenario.cfg_open Scenario.registered /\
  reachable Scenario.cfg_open Scenario.invoiced /\
  reachable Scenario.cfg_open Scenario.paid.
Proof.
  assert (R1 : reachable Scenario.cfg_open Scenario.registered)
    by exact (reachable_handle _ _
                (PostRegister "2025-01-01T00:00:00.000Z" Scenario.start)
                (reachable_start _)).
  assert (R2 : reachable Scenario.cfg_open Scenario.invoiced)
    by exact (reachable_handle _ _
                (PostPaymentsCreate 1735689600000 Scenario.processor_up Scenario.buy) R1).
  split; [exact R1 |]. split; [exact R2 |].
  exact (reachable_handle _ _
           (PostWebhook "2025-01-01T00:05:00.000Z" Scenario.rnds None
                        (Some Scenario.completed)) R2).
Qed.

(** ** The activation-key generator *)

Lemma hexdigit_cases (n : Z) (P : ascii -> Prop) :
  (forall c, In c (list_ascii_of_string "0123456789abcdef") -> P c) -> P (hexdigit n).
Proof.
  intros H. unfold hexdigit.
  destruct (Z.to_nat n) as [| k]; [apply H; simpl; tauto |].
  do 15 (destruct k as [| k]; [apply H; simpl; tauto |]).
  apply H; simpl; tauto.
Qed.

Ltac each_hexdigit :=
  simpl; intros c H; repeat (destruct H as [<- | H]; [reflexivity |]); contradiction.

Lemma hexdigit_lower (n : Z) : is_lower_hex (hexdigit n) = true.
Proof. apply hexdigit_cases. each_hexdigit. Qed.

Lemma hexdigit_not_dash (n : Z) : Ascii.eqb (hexdigit n) "-" = false.
Proof. apply hexdigit_cases. each_hexdigit. Qed.

Lemma hexdigit_upper (n : Z) : is_upper_alnum (upper_char (hexdigit n)) = true.
Proof. apply hexdigit_cases. each_hexdigit. Qed.

Lemma hexdigit_upper_not_dash (n : Z) : is_dash (upper_char (hexdigit n)) = false.
Proof. apply hexdigit_cases. each_hexdigit. Qed.

Lemma hex_of_bytes_length (l : list Z) :
  String.length (hex_of_bytes l) = (2 * List.length l)%nat.
Proof. induction l as [| b r IH]; simpl; [reflexivity | rewrite IH; lia]. Qed.


Lemma upper_hex_alnum (l : list Z) :
  all_chars is_upper_alnum (toUpperCase (hex_of_bytes l)) = true.
Proof.
  induction l as [| b r IH]; simpl; [reflexivity |].
  now rewrite !hexdigit_upper, IH.
Qed.

Lemma upper_hex_no_dash (l : list Z) :
  all_chars (fun c => negb (is_dash c)) (toUpperCase (hex_of_bytes l)) = true.
Proof.
  induction l as [| b r IH]; simpl; [reflexivity |].
  now rewrite !hexdigit_upper_not_dash, IH.
Qed.

Lemma upper_length (s : string) : String.length (toUpperCase s) = String.length s.
Proof. induction s as [| c r IH]; simpl; congruence. Qed.

Lemma remove_dashes_app (s t : string) :
  remove_dashes (s ++ t) = remove_dashes s ++ remove_dashes t.
Proof.
  induction s as [| c r IH]; simpl; [reflexivity |].
  destruct (Ascii.eqb c "-"); simpl; now rewrite IH.
Qed.

Lemma remove_dashes_hex (l : list Z) : remove_dashes (hex_of_bytes l) = hex_of_bytes l.
Proof.
  induction l as [| b r IH]; simpl; [reflexivity |].
  now rewrite !hexdigit_not_dash, IH.
Qed.

Lemma hex_of_bytes_app (l1 l2 : list Z) :
  hex_of_bytes (l1 ++ l2) = hex_of_bytes l1 ++ hex_of_bytes l2.
Proof. induction l1 as [| b r IH]; simpl; [reflexivity | now rewrite IH]. Qed.

Lemma uuid_bytes_length (rnds : list Z) : List.length (uuid_bytes rnds) = 16%nat.
Proof. reflexivity. Qed.

Lemma uuid_groups (b : list Z) :
  (firstn 4 b ++ firstn 2 (skipn 4 b) ++ firstn 2 (skipn 6 b)
     ++ firstn 2 (skipn 8 b) ++ skipn 10 b)%list = b.
Proof.
  replace (skipn 10 b) with (skipn 2 (skipn 8 b)) by now rewrite skipn_skipn.
  rewrite firstn_skipn.
  replace (skipn 8 b) with (skipn 2 (skipn 6 b)) by now rewrite skipn_skipn.
  rewrite firstn_skipn.
  replace (skipn 6 b) with (skipn 2 (skipn 4 b)) by now rewrite skipn_skipn.
  rewrite firstn_skipn. apply firstn_skipn.
Qed.

(** Stripping the dashes of the printed UUID leaves the hexadecimal
    numeral of its sixteen bytes. *)
Lemma remove_dashes_unsafeStringify (b : list Z) :
  remove_dashes (unsafeStringify b) = hex_of_bytes b.
Proof.
  unfold unsafeStringify.
  rewrite !remove_dashes_app, !remove_dashes_hex.
  change (remove_dashes "-") with "". cbn [append].
  rewrite <- !hex_of_bytes_app. f_equal. apply uuid_groups.
Qed.

Lemma generateActivationKey_hex (rnds : list Z) :
  generateActivationKey rnds = toUpperCase (hex_of_bytes (uuid_bytes rnds)).
Proof.
  unfold generateActivationKey, uuidv4. now rewrite remove_dashes_unsafeStringify.
Qed.

Lemma land_ones_range (x n : Z) : 0 <= n -> 0 <= Z.land x (Z.ones n) < 2 ^ n.
Proof.
  intros Hn. rewrite Z.land_ones by assumption.
  apply Z.mod_pos_bound. now apply Z.pow_pos_nonneg.
Qed.

Lemma log2_below (a n : Z) : 0 < n -> 0 <= a < 2 ^ n -> Z.log2 a < n.
Proof.
  intros Hn [H0 H1]. destruct (Z.eq_dec a 0) as [-> | Hz]; [exact Hn |].
  apply Z.log2_lt_pow2; lia.
Qed.

Lemma lor_range (a b n : Z) :
  0 < n -> 0 <= a < 2 ^ n -> 0 <= b < 2 ^ n -> 0 <= Z.lor a b < 2 ^ n.
Proof.
  intros Hn Ha Hb.
  assert (H0 : 0 <= Z.lor a b) by (apply Z.lor_nonneg; lia).
  split; [exact H0 |].
  destruct (Z.eq_dec (Z.lor a b) 0) as [-> | Hz]; [now apply Z.pow_pos_nonneg; lia |].
  apply Z.log2_lt_pow2; [lia |].
  rewrite Z.log2_lor by lia.
  pose proof (log2_below a n Hn Ha). pose proof (log2_below b n Hn Hb). lia.
Qed.

Lemma u8_range (rnds : list Z) (i : nat) : 0 <= u8 rnds i < 256.
Proof. unfold u8. change 255 with (Z.ones 8). apply (land_ones_range _ 8). lia. Qed.

Lemma uuid_bytes_range (rnds : list Z) :
  Forall (fun b => 0 <= b < 256) (uuid_bytes rnds).
Proof.
  unfold uuid_bytes. apply Forall_map, Forall_forall. intros i _.
  destruct (Nat.eqb i 6); [| destruct (Nat.eqb i 8)].
  - apply (lor_range _ _ 8); [lia | | lia].
    change 15 with (Z.ones 4). pose proof (land_ones_range (u8 rnds i) 4). lia.
  - apply (lor_range _ _ 8); [lia | | lia].
    change 63 with (Z.ones 6). pose proof (land_ones_range (u8 rnds i) 6). lia.
  - apply u8_range.
Qed.

(** The thirteenth hexadecimal digit of the identifier is the version, 4. *)
Lemma uuidv4_version (rnds : list Z) : String.get 14 (uuidv4 rnds) = Some "4"%char.
Proof.
  unfold uuidv4, unsafeStringify, uuid_bytes. simpl.
  rewrite Z.shiftr_lor, Z.shiftr_land. simpl (Z.shiftr 15 4).
  now rewrite Z.land_0_r.
Qed.

Lemma uuidv4_length (rnds : list Z) : String.length (uuidv4 rnds) = 36%nat.
Proof. reflexivity. Qed.

(** *** Any UUID in canonical text *)

Lemma lower_hex_char (c : ascii) :
  is_lower_hex c = true ->
  is_dash c = false /\ is_upper_alnum (upper_char c) = true /\
  is_dash (upper_char c) = false.
Proof.
  destruct c as [[] [] [] [] [] [] [] []]; vm_compute; intros H;
    try discriminate H; repeat split.
Qed.

Lemma is_dash_eq (c : ascii) : is_dash c = true -> c = "-"%char.
Proof. apply Ascii.eqb_eq. Qed.

Lemma all_chars_app (p : ascii -> bool) (s t : string) :
  all_chars p (s ++ t) = all_chars p s && all_chars p t.
Proof. induction s as [| c r IH]; simpl; [reflexivity | now rewrite IH, andb_assoc]. Qed.

Lemma toUpperCase_app (s t : string) :
  toUpperCase (s ++ t) = toUpperCase s ++ toUpperCase t.
Proof. induction s as [| c r IH]; simpl; [reflexivity | now rewrite IH]. Qed.

Lemma append_empty_r (s : string) : s ++ "" = s.
Proof. induction s as [| c r IH]; simpl; [reflexivity | now rewrite IH]. Qed.

Lemma string_length_app (s t : string) :
  String.length (s ++ t) = (String.length s + String.length t)%nat.
Proof. induction s as [| c r IH]; simpl; [reflexivity | now rewrite IH]. Qed.

(** A run of lower-case hexadecimal digits is left alone by the removal of
    dashes, and its upper-casing is alphanumeric. *)
Lemma lower_hex_run (h : string) :
  all_chars is_lower_hex h = true ->
  remove_dashes h = h /\
  all_chars is_upper_alnum (toUpperCase h) = true /\
  all_chars (fun c => negb (is_dash c)) (toUpperCase h) = true.
Proof.
  induction h as [| c r IH]; simpl; [now repeat split |].
  intros H. apply andb_prop in H as [Hc Hr].
  destruct (lower_hex_char c Hc) as (D & U & N).
  destruct (IH Hr) as (E1 & E2 & E3).
  unfold is_dash in D. rewrite D, E1, U, E2, N, E3. now repeat split.
Qed.

Lemma hex_group_run (n : nat) (s r : string) :
  hex_group n s = Some r ->
  exists h, s = h ++ r /\ String.length h = n /\ all_chars is_lower_hex h = true.
Proof.
  revert s. induction n as [| n IH]; intros s H; simpl in H.
  - injection H as <-. now exists "".
  - destruct s as [| c t]; [discriminate |].
    destruct (is_lower_hex c) eqn:Hc; [| discriminate].
    destruct (IH t H) as (h & -> & L & A).
    exists (String c h). simpl. now rewrite L, Hc, A.
Qed.

Lemma dash_then_run (n : nat) (o : option string) (r : string) :
  dash_then n o = Some r ->
  exists h, o = Some ("-" ++ h ++ r) /\ String.length h = n /\
            all_chars is_lower_hex h = true.
Proof.
  destruct o as [[| c t] |]; simpl; try discriminate.
  destruct (is_dash c) eqn:D; [| discriminate].
  apply is_dash_eq in D. subst c. intros H.
  destruct (hex_group_run n t r H) as (h & -> & L & A). now exists h.
Qed.

Lemma canonical_uuid_groups (u : string) :
  canonical_uuid u = true ->
  exists h1 h2 h3 h4 h5,
    u = h1 ++ "-" ++ h2 ++ "-" ++ h3 ++ "-" ++ h4 ++ "-" ++ h5 /\
    (String.length h1 = 8 /\ String.length h2 = 4 /\ String.length h3 = 4 /\
     String.length h4 = 4 /\ String.length h5 = 12)%nat /\
    all_chars is_lower_hex (h1 ++ h2 ++ h3 ++ h4 ++ h5) = true.
Proof.
  unfold canonical_uuid. intros H.
  destruct (dash_then 12 _) as [[| ? ?] |] eqn:E5; try discriminate. clear H.
  apply dash_then_run in E5 as (h5 & E4 & L5 & A5).
  apply dash_then_run in E4 as (h4 & E3 & L4 & A4).
  apply dash_then_run in E3 as (h3 & E2 & L3 & A3).
  apply dash_then_run in E2 as (h2 & E1 & L2 & A2).
  apply hex_group_run in E1 as (h1 & -> & L1 & A1).
  exists h1, h2, h3, h4, h5.
  split; [| split].
  - now rewrite append_empty_r.
  - now repeat split.
  - rewrite !all_chars_app, A1, A2, A3, A4, A5. reflexivity.
Qed.

(** Whatever v4 UUID the generator returns, in canonical text, the key made
    of it has 32 characters, digits and upper-case letters only. *)
Lemma normalized_uuid_format (u : string) :
  canonical_uuid u = true ->
  let key := toUpperCase (remove_dashes u) in
  String.length key = 32%nat /\
  all_chars is_upper_alnum key = true /\
  all_chars (fun c => negb (is_dash c)) key = true.
Proof.
  intros C key. subst key.
  destruct (canonical_uuid_groups u C) as (h1 & h2 & h3 & h4 & h5 & -> & L & A).
  destruct (lower_hex_run _ A) as (R & U & N).
  assert (E : remove_dashes (h1 ++ "-" ++ h2 ++ "-" ++ h3 ++ "-" ++ h4 ++ "-" ++ h5)
              = h1 ++ h2 ++ h3 ++ h4 ++ h5).
  { rewrite !remove_dashes_app in *.
    change (remove_dashes "-") with "". cbn [append]. exact R. }
  rewrite E. split; [| now split].
  rewrite upper_length, !string_length_app.
  destruct L as (-> & -> & -> & -> & ->). reflexivity.
Qed.

Lemma uuidv4_canonical (rnds : list Z) : canonical_uuid (uuidv4 rnds) = true.
Proof.
  unfold uuidv4, unsafeStringify, uuid_bytes.
  cbn [seq map firstn skipn hex_of_bytes append Nat.eqb].
  unfold canonical_uuid.
  do 5 (cbn [hex_group dash_then is_dash Ascii.eqb Bool.eqb];
        rewrite ?hexdigit_lower).
  reflexivity.
Qed.

(** C9. Every activation key is a string of 32 characters, each a digit or an
    upper-case letter, none a dash; it is the v4 UUID built from sixteen
    random bytes (a 128-bit identifier in canonical text, whose version
    digit is 4) with its dashes removed and its letters upper-cased. *)
Theorem generateActivationKey_format (rnds : list Z) :
  let key := generateActivationKey rnds in
  let id := uuid_bytes rnds in
  String.length key = 32%nat /\
  all_chars is_upper_alnum key = true /\
  all_chars (fun c => negb (is_dash c)) key = true /\
  key = toUpperCase (remove_dashes (uuidv4 rnds)) /\
  uuidv4 rnds = unsafeStringify id /\
  canonical_uuid (uuidv4 rnds) = true /\
  String.length (uuidv4 rnds) = 36%nat /\
  String.get 14 (uuidv4 rnds) = Some "4"%char /\
  List.length id = 16%nat /\
  Forall (fun b => 0 <= b < 256) id /\
  key = toUpperCase (hex_of_bytes id).
Proof.
  intros key id. subst key id.
  pose proof (generateActivationKey_hex rnds) as E.
  split; [rewrite E, upper_length, hex_of_bytes_length; reflexivity |].
  split; [rewrite E; apply upper_hex_alnum |].
  split; [rewrite E; apply upper_hex_no_dash |].
  split; [reflexivity |].
  split; [reflexivity |].
  split; [apply uuidv4_canonical |].
  split; [reflexivity |].
  split; [apply uuidv4_version |].
  split; [reflexivity |].
  split; [apply uuid_bytes_range | exact E].
Qed.

(** ** The digest *)









(** ** The signature check and the webhook's first gate *)

Lemma verifyOxaPaySignature_open (payload : jsval) (sig : option string) :
  verifyOxaPaySignature None payload sig = Some true /\
  verifyOxaPaySignature (Some "") payload sig = Some true.
Proof. split; reflexivity. Qed.




Lemma is_completed_iff (v : jsval) : is_completed v = true <-> v = str "completed".
Proof.
  destruct v as [[| b | z | s | l | l] |]; simpl; try (split; discriminate).
  rewrite String.eqb_eq. split; intros H; [now subst | now injection H].
Qed.

Lemma webhook_gate_passed cfg now rnds sig (payload : json) st :
  payload <> JNull ->
  verifyOxaPaySignature (OXAPAY_CALLBACK_SECRET cfg) (Some payload) sig = Some true ->
  webhook cfg now rnds sig (Some payload) st =
  if negb (is_completed (prop "status" payload)) then
    mkWebhookResult (Sent Ignored) st None
  else
    match resolve_order (prop "invoice_id" payload) (prop "custom" payload)
                        (pendingOrders st) with
    | None => mkWebhookResult (Sent OrderNotFound) st None
    | Some orderInfo =>
        let key := generateActivationKey rnds in
        mkWebhookResult
          (Sent (mkResponse 200 [("status", str "ok")]))
          (mkState
             (map_delete (order_chatId orderInfo)
                (map_delete (prop "invoice_id" payload) (pendingOrders st)))
             (map_set (str key)
                (mkKeyInfo (order_chatId orderInfo) (order_packageId orderInfo) now)
                (activationKeys st)))
          (if bot cfg
           then Some (order_chatId orderInfo,
                      telegram_message (order_packageId orderInfo) key)
           else None)
    end.
Proof.
  intros Hnn V. unfold webhook. rewrite V.
  destruct payload; try reflexivity. contradiction.
Qed.

(** C5, amended. A webhook whose payload (any JSON value but [null]) has a
    status other than "completed" creates no activation key and leaves both
    stores as they were; it is answered 202 "ignored" when the signature
    check passes and 401 when it fails. *)
Theorem webhook_not_completed cfg now rnds sig (payload : json) st :
  payload <> JNull ->
  is_completed (prop "status" payload) = false ->
  let r := webhook cfg now rnds sig (Some payload) st in
  let check := verifyOxaPaySignature (OXAPAY_CALLBACK_SECRET cfg) (Some payload) sig in
  wh_state r = st /\
  activationKeys (wh_state r) = activationKeys st /\
  pendingOrders (wh_state r) = pendingOrders st /\
  wh_message r = None /\
  (check = Some true -> wh_reply r = Sent Ignored /\ status Ignored = 202%nat) /\
  (check = Some false -> wh_reply r = Sent InvalidSignature /\ status InvalidSignature = 401%nat) /\
  (check = Some true \/ check = Some false).
Proof.
  intros Hnn Hst r check. subst r check.
  destruct (verifyOxaPaySignature (OXAPAY_CALLBACK_SECRET cfg) (Some payload) sig)
    as [[|] |] eqn:V.
  - rewrite (webhook_gate_passed _ _ _ _ _ _ Hnn V), Hst. simpl.
    repeat split; try discriminate; auto.
  - unfold webhook. rewrite V. simpl. repeat split; try discriminate; auto.
  - exfalso. revert V. unfold verifyOxaPaySignature.
    destruct (OXAPAY_CALLBACK_SECRET cfg) as [s |]; [| discriminate].
    destruct (String.eqb s ""); [discriminate |]. simpl. destruct sig; discriminate.
Qed.

Lemma webhook_not_completed_witness :
  wh_reply (webhook Scenario.cfg_open "t" Scenario.rnds None
                    (Some Scenario.waiting) Scenario.invoiced) = Sent Ignored /\
  wh_state (webhook Scenario.cfg_signed "t" Scenario.rnds (Some "tampered")
                    (Some Scenario.waiting) Scenario.invoiced) = Scenario.invoiced.
Proof.
  split.
  - destruct (webhook_not_completed Scenario.cfg_open "t" Scenario.rnds None
                Scenario.waiting Scenario.invoiced) as (_ & _ & _ & _ & H & _).
    + discriminate.
    + reflexivity.
    + apply H. reflexivity.
  - destruct (webhook_not_completed Scenario.cfg_signed "t" Scenario.rnds
                (Some "tampered") Scenario.waiting Scenario.invoiced) as (H & _).
    + discriminate.
    + reflexivity.
    + exact H.
Defined.

(** C5, as stated, fails: with a callback secret configured, a webhook whose
    status is "waiting" and whose signature is not the HMAC of its payload
    is answered 401, not 202. *)
Lemma webhook_not_completed_rejected :
  is_completed (prop "status" Scenario.waiting) = false /\
  wh_reply (webhook Scenario.cfg_signed "t" Scenario.rnds (Some "tampered")
                    (Some Scenario.waiting) Scenario.invoiced)
    = Sent InvalidSignature /\
  status InvalidSignature = 401%nat /\
  Sent InvalidSignature <> Sent Ignored.
Proof.
  split; [reflexivity |].
  split; [vm_compute; reflexivity |].
  split; [reflexivity | discriminate].
Qed.

(** ** A completed payment *)

Lemma completed_not_null (payload : json) :
  prop "status" payload = str "completed" -> payload <> JNull.
Proof. intros H ->. discriminate H. Qed.

(** C2. A webhook that passes the signature check with status "completed"
    looks the order up by the invoice identifier of the payload and, when
    that key is absent, by the chat identifier of the payload's custom
    metadata. When both are absent it answers 404 and changes nothing. When
    one resolves it stores the freshly generated key with the chat and
    package identifiers of the resolved order, removes the entry of the
    invoice identifier and the entry of the order's chat identifier, and
    answers [{status: "ok"}]; the entries of the other codes stay. *)
Theorem webhook_completed cfg now rnds sig (payload : json) st :
  map_wf (pendingOrders st) ->
  verifyOxaPaySignature (OXAPAY_CALLBACK_SECRET cfg) (Some payload) sig = Some true ->
  prop "status" payload = str "completed" ->
  let invoiceId := prop "invoice_id" payload in
  let chat := opt_prop "chatId" (prop "custom" payload) in
  let orders := pendingOrders st in
  let key := generateActivationKey rnds in
  let r := webhook cfg now rnds sig (Some payload) st in
  (map_get invoiceId orders = None -> map_get chat orders = None ->
     r = mkWebhookResult (Sent OrderNotFound) st None /\
     status OrderNotFound = 404%nat) /\
  (forall o,
     map_get invoiceId orders = Some o \/
     (map_get invoiceId orders = None /\ map_get chat orders = Some o) ->
     let issued := mkKeyInfo (order_chatId o) (order_packageId o) now in
     wh_reply r = Sent (mkResponse 200 [("status", str "ok")]) /\
     activationKeys (wh_state r) = map_set (str key) issued (activationKeys st) /\
     map_get (str key) (activationKeys (wh_state r)) = Some issued /\
     (forall k, SameValueZero (str key) k = false ->
        map_get k (activationKeys (wh_state r)) = map_get k (activationKeys st)) /\
     pendingOrders (wh_state r) = map_delete (order_chatId o) (map_delete invoiceId orders) /\
     map_get invoiceId (pendingOrders (wh_state r)) = None /\
     map_get (order_chatId o) (pendingOrders (wh_state r)) = None).
Proof.
  intros W V Hst invoiceId chat orders key r. subst r.
  rewrite (webhook_gate_passed _ _ _ _ _ _ (completed_not_null _ Hst) V).
  apply is_completed_iff in Hst. rewrite Hst. cbn [negb].
  fold invoiceId orders. unfold resolve_order. fold chat.
  split.
  - intros H1 H2. rewrite H1, H2. split; reflexivity.
  - intros o R.
    assert (E : match map_get invoiceId orders with
                | Some o' => Some o'
                | None => map_get chat orders
                end = Some o)
      by (destruct R as [-> | [-> ->]]; reflexivity).
    rewrite E. cbn [wh_reply wh_state activationKeys pendingOrders]. fold key.
    split; [reflexivity |]. split; [reflexivity |].
    split; [apply map_get_set_same, SameValueZero_str |].
    split; [intros k Hk; now apply map_get_set_other |].
    split; [reflexivity |].
    split.
    + apply map_get_delete_none, map_get_delete_same, W.
    + apply map_get_delete_same, map_wf_delete, W.
Qed.

Lemma webhook_completed_witness :
  wh_reply (webhook Scenario.cfg_open "2025-01-01T00:05:00.000Z" Scenario.rnds None
                    (Some Scenario.completed) Scenario.invoiced)
    = Sent (mkResponse 200 [("status", str "ok")]) /\
  map_get (str Scenario.key) (activationKeys Scenario.paid)
    = Some (mkKeyInfo (str "123") (str "pro") "2025-01-01T00:05:00.000Z") /\
  webhook Scenario.cfg_open "t" Scenario.rnds None (Some Scenario.completed)
          Scenario.registered
    = mkWebhookResult (Sent OrderNotFound) Scenario.registered None.
Proof.
  destruct (webhook_completed Scenario.cfg_open "2025-01-01T00:05:00.000Z" Scenario.rnds
              None Scenario.completed Scenario.invoiced) as [_ H].
  { apply (reachable_wf Scenario.cfg_open), scenario_reachable. }
  { reflexivity. }
  { reflexivity. }
  destruct (H (Purchase "123" (str "pro") (Some (JNum 10)) (str "USDT")))
    as (R & _ & G & _).
  { left. reflexivity. }
  destruct (webhook_completed Scenario.cfg_open "t" Scenario.rnds
              None Scenario.completed Scenario.registered) as [N _].
  { apply (reachable_wf Scenario.cfg_open), scenario_reachable. }
  { reflexivity. }
  { reflexivity. }
  split; [exact R |]. split; [exact G |].
  apply N; reflexivity.
Defined.

(** ** Redeeming a key *)

Lemma verifyKey_checked (req : jsval) (st : state) :
  truthy (body_prop "chatId" req) = true ->
  truthy (body_prop "activationKey" req) = true ->
  verifyKey req st =
  match map_get (body_prop "activationKey" req) (activationKeys st) with
  | None => (Sent KeyNotFound, st)
  | Some info =>
      if String.eqb (String_ (key_chatId info)) (String_ (body_prop "chatId" req))
      then (Sent (mkResponse 200 [("status", str "valid");
                                  ("packageId", key_packageId info)]),
            mkState (pendingOrders st)
                    (map_delete (body_prop "activationKey" req) (activationKeys st)))
      else (Sent OwnerMismatch, st)
  end.
Proof.
  intros Hc Hk. unfold verifyKey. rewrite Hc, Hk. cbn [negb orb].
  destruct (map_get _ _) as [info |]; [| reflexivity].
  now destruct (String.eqb _ _).
Qed.





(** ** Creating an invoice *)




(** ** Registering *)




(** ** Chat identifiers given as numbers *)







(** The webhook reads the chat identifier of the custom metadata as it
    comes: a number there does not find the entry its decimal string finds. *)
Lemma webhook_fallback_uses_raw_chatId :
  wh_reply (webhook Scenario.cfg_open "t" Scenario.rnds None
              (Some (JObj [("status", JStr "completed");
                           ("custom", JObj [("chatId", JNum 123)])]))
              Scenario.registered)
    = Sent OrderNotFound /\
  wh_reply (webhook Scenario.cfg_open "t" Scenario.rnds None
              (Some (JObj [("status", JStr "completed");
                           ("custom", JObj [("chatId", JStr "123")])]))
              Scenario.registered)
    = Sent (mkResponse 200 [("status", str "ok")]).
Proof. split; reflexivity. Qed.

(** ** Keys issued from a registration alone *)

(** C7 fails on the code: resolved through the chat identifier against an
    entry that only [register] wrote, the webhook stores a key whose package
    identifier is [undefined], and redeeming it answers "valid" with no
    package. *)
Lemma webhook_key_without_package :
  let payload := JObj [("status", JStr "completed"); ("invoice_id", JStr "INV9");
                       ("custom", JObj [("chatId", JStr "123")])] in
  let r := webhook Scenario.cfg_open "t1" Scenario.rnds None (Some payload)
                   Scenario.registered in
  wh_reply r = Sent (mkResponse 200 [("status", str "ok")]) /\
  activationKeys (wh_state r)
    = [(str Scenario.key, mkKeyInfo (str "123") undefined "t1")] /\
  verifyKey (Scenario.redeem (JStr "123") Scenario.key) (wh_state r)
    = (Sent (mkResponse 200 [("status", str "valid"); ("packageId", undefined)]),
       empty_state).
Proof. repeat split. Qed.

(** ** Invariants of a run *)

Section EntryFacts.

Context {V : Type} (P : jsval * V -> Prop).

Lemma Forall_map_set k v (m : jsmap V) :
  Forall P m -> P (k, v) -> Forall P (map_set k v m).
Proof.
  intros F Hkv. induction m as [| [k' v'] r IH]; simpl.
  - now constructor.
  - inversion F as [| ? ? Hh Ht]; subst.
    destruct (SameValueZero k' k) eqn:E.
    + apply SameValueZero_eq in E. subst k'. now constructor.
    + constructor; auto.
Qed.

Lemma Forall_map_delete k (m : jsmap V) : Forall P m -> Forall P (map_delete k m).
Proof.
  intros F. induction m as [| [k' v'] r IH]; simpl; [constructor |].
  inversion F as [| ? ? Hh Ht]; subst.
  destruct (SameValueZero k' k); [assumption | constructor; auto].
Qed.

Lemma Forall_map_get k v (m : jsmap V) : Forall P m -> map_get k m = Some v -> P (k, v).
Proof.
  intros F. induction m as [| [k' v'] r IH]; simpl; [discriminate |].
  inversion F as [| ? ? Hh Ht]; subst.
  destruct (SameValueZero k' k) eqn:E; [| auto].
  apply SameValueZero_eq in E. subst k'. intros H. injection H as <-. exact Hh.
Qed.

End EntryFacts.

Lemma resolve_order_checked invoiceId custom orders o :
  Forall (fun e => order_checked (snd e)) orders ->
  resolve_order invoiceId custom orders = Some o -> order_checked o.
Proof.
  intros F. unfold resolve_order.
  destruct (map_get invoiceId orders) as [o' |] eqn:G.
  - intros H. injection H as <-.
    exact (Forall_map_get (fun e => order_checked (snd e)) _ _ _ F G).
  - intros H.
    exact (Forall_map_get (fun e => order_checked (snd e)) _ _ _ F H).
Qed.

Lemma handle_entries_ok cfg rq st : entries_ok st -> entries_ok (handle cfg rq st).
Proof.
  intros [Fo Fk].
  destruct rq as [now b | nowMs processor b | now rnds sg payload | b]; simpl.
  - unfold register. destruct (truthy (body_prop "chatId" b)); simpl; split; auto.
    now apply Forall_map_set.
  - unfold createInvoice.
    destruct (negb (truthy (body_prop "chatId" b))) eqn:T1; [split; assumption |].
    destruct (negb (truthy (body_prop "packageId" b))) eqn:T2; [split; assumption |].
    cbn [orb].
    destruct (negb (truthy (body_prop "amount" b)) || negb (truthy (body_prop "currency" b)));
      [split; assumption |].
    destruct (negb (map_has _ _)); [split; assumption |].
    destruct (processor _) as [| data]; [split; assumption |].
    destruct (destructure data); simpl; split; auto.
    apply Forall_map_set; [assumption |]. simpl.
    now apply Bool.negb_false_iff in T2.
  - unfold webhook.
    destruct (verifyOxaPaySignature _ _ _) as [[|] |]; [| split; assumption ..].
    destruct (destructure payload) as [p |]; [| split; assumption].
    destruct (negb _); [split; assumption |].
    destruct (resolve_order _ _ _) as [o |] eqn:R; simpl; [| split; assumption].
    split.
    + now apply Forall_map_delete, Forall_map_delete.
    + apply Forall_map_set; [assumption |]. split; simpl.
      * now exists rnds.
      * destruct o as [c ? ? ? | c ? ? ?]; now exists c.
  - unfold verifyKey.
    destruct (_ || _); [split; assumption |].
    destruct (map_get _ _) as [info |]; [| split; assumption].
    destruct (negb _); simpl; split; auto.
    now apply Forall_map_delete.
Qed.

(** Along every run, every stored key is a generated code owned by a chat
    identifier in string form, and every order of the payment route has its
    package identifier. *)
Lemma reachable_entries_ok cfg st : reachable cfg st -> entries_ok st.
Proof.
  induction 1 as [| st rq _ IH].
  - split; constructor.
  - now apply handle_entries_ok.
Qed.

(** A key issued from an order of the payment route does carry a package. *)
Lemma webhook_key_with_package cfg now rnds sig (payload : json) st c p a cur :
  reachable cfg st ->
  verifyOxaPaySignature (OXAPAY_CALLBACK_SECRET cfg) (Some payload) sig = Some true ->
  prop "status" payload = str "completed" ->
  resolve_order (prop "invoice_id" payload) (prop "custom" payload) (pendingOrders st)
    = Some (Purchase c p a cur) ->
  map_get (str (generateActivationKey rnds))
          (activationKeys (wh_state (webhook cfg now rnds sig (Some payload) st)))
    = Some (mkKeyInfo (str c) p now) /\
  truthy p = true.
Proof.
  intros R V Hst Hres.
  rewrite (webhook_gate_passed _ _ _ _ _ _ (completed_not_null _ Hst) V).
  apply is_completed_iff in Hst. rewrite Hst, Hres.
  cbn [negb wh_state activationKeys order_chatId order_packageId].
  split; [apply map_get_set_same, SameValueZero_str |].
  destruct (reachable_entries_ok cfg st R) as [Fo _].
  exact (resolve_order_checked _ _ _ _ Fo Hres).
Qed.

(** ** The end-to-end scenario *)

Lemma end_to_end :
  fst (register "2025-01-01T00:00:00.000Z" Scenario.start empty_state)
    = Sent (mkResponse 200 [("status", str "registered")]) /\
  fst (createInvoice Scenario.cfg_open 1735689600000 Scenario.processor_up Scenario.buy
                     Scenario.registered)
    = Sent (mkResponse 200 [("paymentUrl", str "https://pay.example/INV1");
                            ("invoiceId", str "INV1")]) /\
  wh_reply (webhook Scenario.cfg_open "2025-01-01T00:05:00.000Z" Scenario.rnds None
                    (Some Scenario.completed) Scenario.invoiced)
    = Sent (mkResponse 200 [("status", str "ok")]) /\
  Scenario.key = "0102030405064708890A0B0C0D0E0F10" /\
  pendingOrders Scenario.paid = [] /\
  verifyKey (Scenario.redeem (JStr "123") Scenario.key) Scenario.paid
    = (Sent (mkResponse 200 [("status", str "valid"); ("packageId", str "pro")]),
       empty_state) /\
  verifyKey (Scenario.redeem (JStr "123") Scenario.key) empty_state
    = (Sent KeyNotFound, empty_state) /\
  wh_reply (webhook Scenario.cfg_open "t" Scenario.rnds None
                    (Some (JObj [("status", JStr "completed");
                                 ("invoice_id", JStr "never-seen")]))
                    Scenario.invoiced)
    = Sent OrderNotFound.
Proof. repeat split. Qed.

(** * Further properties of the handlers *)

(** ** More on the map operations *)

Section JsMapMore.

Context {V : Type}.
Implicit Types (m : jsmap V) (k : jsval) (v : V).

Lemma map_wf_tail k v m : map_wf ((k, v) :: m) -> map_wf m.
Proof.
  intros W k0. specialize (W k0). simpl in W.
  destruct (SameValueZero k k0); lia.
Qed.

Lemma map_wf_head k v m k0 :
  map_wf ((k, v) :: m) -> SameValueZero k k0 = true -> map_get k0 m = None.
Proof.
  intros W E. specialize (W k0). simpl in W. rewrite E in W.
  apply map_get_count_zero. lia.
Qed.


(** What is found after a deletion was there before. *)
Lemma map_get_delete_some k k0 m v :
  map_wf m -> map_get k0 (map_delete k m) = Some v -> map_get k0 m = Some v.
Proof.
  induction m as [| [k' v'] r IH]; simpl; intros W H; [discriminate |].
  destruct (SameValueZero k' k) eqn:E; simpl in H.
  - destruct (SameValueZero k' k0) eqn:E0; [| exact H].
    rewrite (map_wf_head _ _ _ _ W E0) in H. discriminate.
  - destruct (SameValueZero k' k0); [exact H |].
    apply IH; [exact (map_wf_tail _ _ _ W) | exact H].
Qed.



End JsMapMore.

(** ** What [verifyKey] can answer *)


(** ** Where activation keys come from *)

(** X2. The webhook changes a store only after the signature check has
    passed on a payload whose status is "completed" and for which an order
    was resolved; the one key whose entry then differs is the code just
    generated. In particular a rejected or ignored notification issues
    nothing. *)
Theorem webhook_issues_only_when_paid cfg now rnds sig (payload : jsval) (st : state) :
  let r := webhook cfg now rnds sig payload st in
  wh_state r <> st \/ wh_message r <> None \/
  (exists k, map_get k (activationKeys (wh_state r)) <> map_get k (activationKeys st)) ->
  verifyOxaPaySignature (OXAPAY_CALLBACK_SECRET cfg) payload sig = Some true /\
  exists p o,
    destructure payload = Some p /\
    prop "status" p = str "completed" /\
    resolve_order (prop "invoice_id" p) (prop "custom" p) (pendingOrders st) = Some o /\
    wh_reply r = Sent (mkResponse 200 [("status", str "ok")]) /\
    (forall k,
       map_get k (activationKeys (wh_state r)) <> map_get k (activationKeys st) ->
       k = str (generateActivationKey rnds)).
Proof.
  intros r H. subst r. unfold webhook in *.
  assert (N : forall (w : reply),
             ~ (st <> st \/ @None (jsval * string) <> None \/
                (exists k : jsval,
                   map_get k (activationKeys st) <> map_get k (activationKeys st))))
    by (intros _ [C | [C | [k C]]]; now contradiction C).
  destruct (verifyOxaPaySignature _ _ _) as [[|] |];
    [| exfalso; exact (N Uncaught H) ..].
  split; [reflexivity |].
  destruct (destructure payload) as [p |]; [| exfalso; exact (N Uncaught H)].
  destruct (is_completed (prop "status" p)) eqn:C; cbn [negb] in *;
    [| exfalso; exact (N Uncaught H)].
  destruct (resolve_order _ _ _) as [o |] eqn:R; [| exfalso; exact (N Uncaught H)].
  exists p, o. apply is_completed_iff in C.
  split; [reflexivity |]. split; [exact C |]. split; [exact R |].
  split; [reflexivity |].
  cbn [wh_state activationKeys]. intros k D.
  destruct (SameValueZero (str (generateActivationKey rnds)) k) eqn:E.
  - apply SameValueZero_eq in E. now subst k.
  - rewrite map_get_set_other in D by exact E. now contradiction D.
Qed.

Lemma webhook_issues_only_when_paid_witness :
  verifyOxaPaySignature None (Some Scenario.completed) None = Some true /\
  exists o, resolve_order (str "INV1") undefined (pendingOrders Scenario.invoiced)
            = Some o.
Proof.
  destruct (webhook_issues_only_when_paid Scenario.cfg_open "2025-01-01T00:05:00.000Z"
              Scenario.rnds None (Some Scenario.completed) Scenario.invoiced)
    as (V & p & o & D & _ & R & _).
  - left. discriminate.
  - injection D as <-. split; [exact V | exists o; exact R].
Defined.

(** X3. No route but the webhook adds an activation key. [register] and the
    payment route leave the key store as it is; [verifyKey] leaves the order
    store as it is, and whatever key is found after it was there before,
    with the same owner and package. *)
Theorem only_webhook_adds_keys cfg (rq : request) (st : state) :
  is_webhook rq = false ->
  map_wf (activationKeys st) ->
  let st' := handle cfg rq st in
  (forall k info,
     map_get k (activationKeys st') = Some info ->
     map_get k (activationKeys st) = Some info) /\
  (List.length (activationKeys st') <= List.length (activationKeys st))%nat /\
  (forall now b, rq = PostRegister now b -> activationKeys st' = activationKeys st) /\
  (forall nowMs processor b,
     rq = PostPaymentsCreate nowMs processor b -> activationKeys st' = activationKeys st) /\
  (forall b, rq = PostVerifyKey b -> pendingOrders st' = pendingOrders st).
Proof.
  intros Hw W st'. subst st'.
  assert (Kr : forall now b, activationKeys (snd (register now b st)) = activationKeys st).
  { intros now b. unfold register. now destruct (negb _). }
  assert (Kc : forall nowMs processor b,
             activationKeys (snd (createInvoice cfg nowMs processor b st))
             = activationKeys st).
  { intros nowMs processor b. unfold createInvoice.
    destruct (_ || _); [reflexivity |]. destruct (negb _); [reflexivity |].
    destruct (processor _) as [| d]; [reflexivity |]. now destruct (destructure d). }
  assert (Dl : forall k (m : jsmap keyInfo),
             (List.length (map_delete k m) <= List.length m)%nat).
  { intros k m. induction m as [| [k' v'] r IH]; simpl; [lia |].
    destruct (SameValueZero k' k); simpl; lia. }
  destruct rq as [now b | nowMs processor b | now rnds sg payload | b];
    [| | discriminate Hw |]; cbn [handle].
  - rewrite Kr. repeat split; auto; intros; discriminate.
  - rewrite Kc. repeat split; auto; intros; discriminate.
  - assert (Kv : activationKeys (snd (verifyKey b st)) = activationKeys st \/
                 activationKeys (snd (verifyKey b st))
                 = map_delete (body_prop "activationKey" b) (activationKeys st)).
    { unfold verifyKey. destruct (_ || _); [now left |].
      destruct (map_get _ _); [| now left]. destruct (negb _); [now left | now right]. }
    assert (Ov : pendingOrders (snd (verifyKey b st)) = pendingOrders st).
    { unfold verifyKey. destruct (_ || _); [reflexivity |].
      destruct (map_get _ _); [| reflexivity]. now destruct (negb _). }
    split; [| split; [| repeat split; intros; try discriminate; exact Ov]].
    + intros k info. destruct Kv as [-> | ->]; [auto |].
      now apply map_get_delete_some.
    + destruct Kv as [-> | ->]; [lia | apply Dl].
Qed.

Lemma only_webhook_adds_keys_witness :
  map_get (str Scenario.key) (activationKeys Scenario.paid)
    = Some (mkKeyInfo (str "123") (str "pro") "2025-01-01T00:05:00.000Z") /\
  pendingOrders (handle Scenario.cfg_open
                        (PostVerifyKey (Scenario.redeem (JStr "999") Scenario.key))
                        Scenario.paid)
    = pendingOrders Scenario.paid.
Proof.
  destruct (only_webhook_adds_keys Scenario.cfg_open
              (PostVerifyKey (Scenario.redeem (JStr "999") Scenario.key)) Scenario.paid)
    as (M & _ & _ & _ & O).
  - reflexivity.
  - apply (reachable_wf Scenario.cfg_open), scenario_reachable.
  - split; [apply M; reflexivity | exact (O _ eq_refl)].
Defined.

(** ** A successful invoice *)





(** ** From payment to redemption *)

Lemma generateActivationKey_length (rnds : list Z) :
  String.length (generateActivationKey rnds) = 32%nat.
Proof.
  now rewrite generateActivationKey_hex, upper_length, hex_of_bytes_length.
Qed.







(** ** The Telegram message *)

Lemma string_app_assoc (a b c : string) : (a ++ b) ++ c = a ++ b ++ c.
Proof. induction a as [| x r IH]; simpl; [reflexivity | now rewrite IH]. Qed.

(** X8. The webhook hands a message to the bot exactly when a bot is
    configured and a key was issued. The message goes to the chat recorded
    as the owner of that key, a chat identifier in string form, and its text
    carries the key. *)
Theorem webhook_message_to_owner cfg now rnds sig (payload : jsval) (st : state) :
  let r := webhook cfg now rnds sig payload st in
  let key := generateActivationKey rnds in
  let issued := mkResponse 200 [("status", str "ok")] in
  (wh_message r <> None <-> bot cfg = true /\ wh_reply r = Sent issued) /\
  (forall chat text,
     wh_message r = Some (chat, text) ->
     (exists c, chat = str c) /\
     (exists info,
        map_get (str key) (activationKeys (wh_state r)) = Some info /\
        key_chatId info = chat /\
        text = telegram_message (key_packageId info) key) /\
     (exists before after, text = before ++ key ++ after)).
Proof.
  intros r key issued. subst r. unfold webhook.
  assert (N : forall rep (s : state),
             rep <> Sent issued ->
             (@None (jsval * string) <> None <-> bot cfg = true /\ rep = Sent issued) /\
             (forall chat text,
                @None (jsval * string) = Some (chat, text) ->
                (exists c, chat = str c) /\
                (exists info,
                   map_get (str key) (activationKeys s) = Some info /\
                   key_chatId info = chat /\
                   text = telegram_message (key_packageId info) key) /\
                (exists before after, text = before ++ key ++ after))).
  { intros rep s D. split.
    - split; [intros C; now contradiction C | intros [_ C]; now contradiction D].
    - intros chat text C. discriminate C. }
  destruct (verifyOxaPaySignature _ _ _) as [[|] |];
    [| apply N; discriminate ..].
  destruct (destructure payload) as [p |]; [| apply N; discriminate].
  destruct (negb _); [apply N; discriminate |].
  destruct (resolve_order _ _ _) as [o |]; [| apply N; discriminate].
  cbn [wh_reply wh_state wh_message activationKeys]. fold key issued.
  destruct (bot cfg).
  - split; [split; [intros _; now split | intros _; discriminate] |].
    intros chat text E. injection E as <- <-.
    split; [destruct o as [c ? ? ? | c ? ? ?]; now exists c |].
    split.
    + eexists. split; [apply map_get_set_same, SameValueZero_str |]. now split.
    + unfold telegram_message.
      match goal with
      | |- exists before after, ?a1 ++ ?a2 ++ ?a3 ++ ?a4 ++ ?a5 ++ ?a6 ++ ?a7 ++ ?a8
                                  ++ key ++ ?rest = _ =>
          exists (a1 ++ a2 ++ a3 ++ a4 ++ a5 ++ a6 ++ a7 ++ a8), rest
      end.
      now rewrite !string_app_assoc.
  - split; [split; [intros C; now contradiction C | intros [C _]; discriminate C] |].
    intros chat text C. discriminate C.
Qed.

(** ** Bodies that are not objects *)




(** ** The keys of a run *)

Lemma run_key_shape cfg (st : state) (k : jsval) (info : keyInfo) :
  reachable cfg st ->
  map_get k (activationKeys st) = Some info ->
  exists code c, k = str code /\ is_upper_code code /\ key_chatId info = str c.
Proof.
  intros R G. destruct (reachable_entries_ok cfg st R) as [_ F].
  destruct (Forall_map_get key_entry_owned k info _ F G) as [[rnds Ek] [c Ec]].
  cbn [fst snd] in Ek, Ec. exists (generateActivationKey rnds), c.
  split; [exact Ek |]. split; [| exact Ec].
  split; [apply generateActivationKey_length |].
  rewrite generateActivationKey_hex. apply upper_hex_alnum.
Qed.

(** X10. Along every run of the server, each entry of the key store has for
    key a string of 32 digits and upper-case letters, and for owner a chat
    identifier in string form, so that the [String(keyInfo.chatId)] of
    [verifyKey] is the owner itself. *)
Theorem run_keys_are_codes cfg (st : state) (k : jsval) (info : keyInfo) :
  reachable cfg st ->
  map_get k (activationKeys st) = Some info ->
  exists code c,
    k = str code /\ is_upper_code code /\
    key_chatId info = str c /\ String_ (key_chatId info) = c.
Proof.
  intros R G. destruct (run_key_shape cfg st k info R G) as (code & c & E1 & E2 & E3).
  exists code, c. rewrite E3.
  split; [exact E1 |]. split; [exact E2 |]. split; reflexivity.
Qed.

Lemma run_keys_are_codes_witness :
  exists code c,
    str Scenario.key = str code /\ is_upper_code code /\
    str "123" = str c /\ String_ (str "123") = c.
Proof.
  apply (run_keys_are_codes Scenario.cfg_open Scenario.paid (str Scenario.key)
           (mkKeyInfo (str "123") (str "pro") "2025-01-01T00:05:00.000Z")).
  - apply scenario_reachable.
  - reflexivity.
Defined.

(** X11. Keys are matched as they are written. Along every run, a request
    to [verifyKey] whose key is anything but a string of 32 digits and
    upper-case letters (a number, the lower-case or the dashed form of the
    identifier) is answered 404, whoever presents it, and changes nothing. *)
Theorem verifyKey_exact_match cfg (req : jsval) (st : state) :
  reachable cfg st ->
  truthy (body_prop "chatId" req) = true ->
  truthy (body_prop "activationKey" req) = true ->
  (forall code, body_prop "activationKey" req = str code -> ~ is_upper_code code) ->
  verifyKey req st = (Sent KeyNotFound, st).
Proof.
  intros R Tc Tk Hk. rewrite (verifyKey_checked req st Tc Tk).
  destruct (map_get _ _) as [info |] eqn:G; [| reflexivity].
  destruct (run_key_shape cfg st _ info R G) as (code & c & E1 & E2 & _).
  now contradiction (Hk code E1).
Qed.

Lemma verifyKey_exact_match_witness :
  verifyKey (Scenario.redeem (JStr "123") "0102030405064708890a0b0c0d0e0f10") Scenario.paid
    = (Sent KeyNotFound, Scenario.paid) /\
  verifyKey (Scenario.redeem (JStr "123") "01020304-0506-4708-890A-0B0C0D0E0F10")
            Scenario.paid
    = (Sent KeyNotFound, Scenario.paid).
Proof.
  split;
    apply (verifyKey_exact_match Scenario.cfg_open); try reflexivity;
    try apply scenario_reachable;
    intros code E; injection E as <-; intros [L A]; discriminate.
Defined.

(** ** The key keeps the whole identifier *)

Lemma lower_hex_in (c : ascii) :
  is_lower_hex c = true -> In c (list_ascii_of_string "0123456789abcdef").
Proof.
  destruct c as [[] [] [] [] [] [] [] []]; vm_compute; intros H;
    try discriminate H; repeat (first [left; reflexivity | right]).
Qed.

Lemma upper_char_inj (c d : ascii) :
  is_lower_hex c = true -> is_lower_hex d = true ->
  upper_char c = upper_char d -> c = d.
Proof.
  intros Hc Hd. apply lower_hex_in in Hc. apply lower_hex_in in Hd.
  simpl in Hc, Hd.
  repeat (destruct Hc as [<- | Hc];
          [repeat (destruct Hd as [<- | Hd];
                   [intros E; vm_compute in E; first [reflexivity | discriminate E] |]);
           contradiction |]).
  contradiction.
Qed.

Lemma toUpperCase_inj (a b : string) :
  all_chars is_lower_hex a = true -> all_chars is_lower_hex b = true ->
  toUpperCase a = toUpperCase b -> a = b.
Proof.
  revert b. induction a as [| c r IH]; intros [| d s] Ha Hb E; simpl in *;
    try discriminate E; [reflexivity |].
  apply andb_prop in Ha as [Hc Hr]. apply andb_prop in Hb as [Hd Hs].
  injection E as E1 E2. f_equal; [now apply upper_char_inj | now apply IH].
Qed.

Lemma string_app_inj (a a' b b' : string) :
  String.length a = String.length a' -> a ++ b = a' ++ b' -> a = a' /\ b = b'.
Proof.
  revert a'. induction a as [| c r IH]; intros [| c' r'] L E; simpl in *;
    try discriminate L; [now split |].
  injection E as -> E. injection L as L.
  destruct (IH r' L E) as [-> ->]. now split.
Qed.

Lemma remove_dashes_groups (h1 h2 h3 h4 h5 : string) :
  all_chars is_lower_hex (h1 ++ h2 ++ h3 ++ h4 ++ h5) = true ->
  remove_dashes (h1 ++ "-" ++ h2 ++ "-" ++ h3 ++ "-" ++ h4 ++ "-" ++ h5)
  = h1 ++ h2 ++ h3 ++ h4 ++ h5.
Proof.
  intros A. destruct (lower_hex_run _ A) as (R & _).
  rewrite !remove_dashes_app in *.
  change (remove_dashes "-") with "". cbn [append]. exact R.
Qed.

Lemma normalisation_injective (u1 u2 : string) :
  canonical_uuid u1 = true ->
  canonical_uuid u2 = true ->
  toUpperCase (remove_dashes u1) = toUpperCase (remove_dashes u2) ->
  u1 = u2.
Proof.
  intros C1 C2 E.
  destruct (canonical_uuid_groups u1 C1) as (a1 & a2 & a3 & a4 & a5 & -> & La & Aa).
  destruct (canonical_uuid_groups u2 C2) as (b1 & b2 & b3 & b4 & b5 & -> & Lb & Ab).
  rewrite (remove_dashes_groups _ _ _ _ _ Aa), (remove_dashes_groups _ _ _ _ _ Ab) in E.
  apply (toUpperCase_inj _ _ Aa Ab) in E.
  destruct La as (L1 & L2 & L3 & L4 & L5). destruct Lb as (M1 & M2 & M3 & M4 & M5).
  apply string_app_inj in E as [-> E]; [| congruence].
  apply string_app_inj in E as [-> E]; [| congruence].
  apply string_app_inj in E as [-> E]; [| congruence].
  apply string_app_inj in E as [-> ->]; [| congruence].
  reflexivity.
Qed.

(** X12. The normalisation of [generateActivationKey] loses nothing of the
    identifier: two UUIDs in canonical text that give the same key are the
    same UUID, and so two runs of the generator return the same key only
    when [uuidv4()] returned the same identifier. *)
Theorem generateActivationKey_keeps_uuid :
  (forall u1 u2,
     canonical_uuid u1 = true -> canonical_uuid u2 = true ->
     toUpperCase (remove_dashes u1) = toUpperCase (remove_dashes u2) -> u1 = u2) /\
  (forall rnds1 rnds2,
     generateActivationKey rnds1 = generateActivationKey rnds2 ->
     uuidv4 rnds1 = uuidv4 rnds2).
Proof.
  split; [exact normalisation_injective |].
  intros rnds1 rnds2 E.
  apply normalisation_injective; [apply uuidv4_canonical .. | exact E].
Qed.

(** ** Settings *)

Lemma path_step_opt_prop (acc : jsval) (key : string) :
  path_step acc key = opt_prop key acc.
Proof.
  unfold path_step, opt_prop.
  destruct acc as [[| b | z | s | l | l] |]; cbn [truthy destructure prop undefined];
    try reflexivity; now destruct (negb _) || now destruct b.
Qed.

Lemma fold_path_step (keys : list string) (v : jsval) :
  fold_left path_step keys v = get_path keys v.
Proof.
  revert v. induction keys as [| k r IH]; intros v; simpl; [reflexivity |].
  now rewrite path_step_opt_prop, IH.
Qed.

Lemma get_path_undefined (keys : list string) : get_path keys undefined = undefined.
Proof. induction keys as [| k r IH]; simpl; [reflexivity | exact IH]. Qed.

Lemma split_dot_cons (s : string) : exists k r, split_dot s = k :: r.
Proof.
  induction s as [| c t (k & r & E)]; simpl; [now exists "", [] |].
  rewrite E. destruct (Ascii.eqb c "."); eauto.
Qed.

Lemma configValue_unfold env (fileConfig : json) envKey path d :
  path <> "" ->
  configValue env fileConfig envKey (Some path) d =
  let from_file := nullish (get_path (split_dot path) (Some fileConfig)) d in
  match env envKey with
  | Some v => if String.eqb v "" then from_file else str v
  | None => from_file
  end.
Proof.
  intros Hp. unfold configValue. apply String.eqb_neq in Hp.
  now rewrite Hp, fold_path_step.
Qed.

Lemma settings_shape k path d :
  In (k, path, d) settings -> path <> "" /\ d <> Some JNull.
Proof.
  unfold settings. intros H.
  repeat (destruct H as [H | H]; [injection H as <- <- <-; split; discriminate |]).
  contradiction.
Qed.

(** X13. For each setting the server reads: an environment variable that
    is set and not empty wins; otherwise the value found in the
    configuration file by following the keys of the dotted path is taken,
    whatever it is (zero, [false] and the empty string included), except
    that a missing value or [null] gives the default. No setting is ever
    [null]. *)
Theorem configValue_precedence env (fileConfig : json) k path d :
  In (k, path, d) settings ->
  let r := configValue env fileConfig k (Some path) d in
  let in_file := get_path (split_dot path) (Some fileConfig) in
  (forall v, env k = Some v -> v <> "" -> r = str v) /\
  (env k = None \/ env k = Some "" ->
     (in_file = undefined \/ in_file = Some JNull -> r = d) /\
     (forall j, in_file = Some j -> j <> JNull -> r = Some j)) /\
  r <> Some JNull.
Proof.
  intros Hin r in_file. destruct (settings_shape k path d Hin) as [Hp Hd].
  subst r. rewrite (configValue_unfold env fileConfig k path d Hp). cbv zeta.
  fold in_file.
  assert (F1 : in_file = undefined \/ in_file = Some JNull -> nullish in_file d = d)
    by (intros [-> | ->]; reflexivity).
  assert (F2 : forall j, in_file = Some j -> j <> JNull -> nullish in_file d = Some j)
    by (intros j -> Hj; destruct j; try reflexivity; now contradiction Hj).
  assert (F3 : nullish in_file d <> Some JNull).
  { destruct in_file as [[| b | z | s | l | l] |]; cbn [nullish];
      first [exact Hd | discriminate]. }
  split; [| split].
  - intros v -> Hv. apply String.eqb_neq in Hv. now rewrite Hv.
  - intros [-> | ->]; cbn [String.eqb]; split; assumption.
  - destruct (env k) as [v |]; [| exact F3].
    destruct (String.eqb v ""); [exact F3 | discriminate].
Qed.

Lemma configValue_precedence_witness :
  let env := fun k => if String.eqb k "OXAPAY_BASE_URL" then Some "" else None in
  let fileConfig :=
    JObj [("oxapay", JObj [("baseUrl", JNull); ("callbackSecret", JStr "")])] in
  configValue env fileConfig "OXAPAY_BASE_URL" (Some "oxapay.baseUrl")
              (str "https://api.oxapay.com")
    = str "https://api.oxapay.com" /\
  configValue env fileConfig "OXAPAY_CALLBACK_SECRET" (Some "oxapay.callbackSecret")
              undefined
    = str "".
Proof.
  intros env fileConfig. split.
  - destruct (configValue_precedence env fileConfig "OXAPAY_BASE_URL" "oxapay.baseUrl"
                (str "https://api.oxapay.com")) as (_ & H & _).
    + unfold settings. simpl. tauto.
    + destruct H as [H _]; [right; reflexivity |]. apply H. right. reflexivity.
  - destruct (configValue_precedence env fileConfig "OXAPAY_CALLBACK_SECRET"
                "oxapay.callbackSecret" undefined) as (_ & H & _).
    + unfold settings. simpl. tauto.
    + destruct H as [_ H]; [left; reflexivity |].
      apply (H (JStr "")); [reflexivity | discriminate].
Defined.

(** X14. [loadConfigFile] returns the first candidate that is there and
    parses: files before it that are missing or malformed are passed over,
    files after it are not looked at. When no candidate parses it returns
    the empty object, and every setting that the environment does not give
    takes its default. *)
Theorem loadConfigFile_first_parsed (before after : list candidate) (content : json) :
  Forall (fun c => c = Absent \/ c = Unparsable) before ->
  loadConfigFile (before ++ Parsed content :: after) = content /\
  loadConfigFile before = JObj [] /\
  (forall env k path d,
     In (k, path, d) settings -> env k = None ->
     configValue env (loadConfigFile before) k (Some path) d = d).
Proof.
  intros F.
  assert (A : forall rest, loadConfigFile (before ++ rest) = loadConfigFile rest).
  { intros rest. induction F as [| c l [-> | ->] _ IH]; simpl; auto. }
  assert (E : loadConfigFile before = JObj []).
  { rewrite <- (app_nil_r before). now rewrite A. }
  split; [now rewrite A |]. split; [exact E |].
  intros env k path d Hin He. destruct (settings_shape k path d Hin) as [Hp _].
  rewrite (configValue_unfold env _ k path d Hp), He, E. cbv zeta.
  destruct (split_dot_cons path) as (key & rest & ->).
  cbn [get_path opt_prop destructure prop assoc].
  now rewrite get_path_undefined.
Qed.

Lemma loadConfigFile_first_parsed_witness :
  loadConfigFile [Unparsable; Parsed (JObj [("port", JNum 8080)]);
                  Parsed (JObj [("port", JNum 4000)])]
    = JObj [("port", JNum 8080)].
Proof.
  apply (loadConfigFile_first_parsed [Unparsable] [Parsed (JObj [("port", JNum 4000)])]).
  constructor; [now right | constructor].
Defined.

(** ** What a registration and a payment leave behind *)





(** X17. Along every run, the key issued by a verified "completed" webhook
    carries the package identifier of the request that created the invoice
    when the order resolved is one of the payment route, and no package
    identifier exactly when the order resolved is a bare registration. *)
Theorem issued_key_package cfg now rnds sig (payload : json) (st : state) (o : order) :
  reachable cfg st ->
  verifyOxaPaySignature (OXAPAY_CALLBACK_SECRET cfg) (Some payload) sig = Some true ->
  prop "status" payload = str "completed" ->
  resolve_order (prop "invoice_id" payload) (prop "custom" payload) (pendingOrders st)
    = Some o ->
  let st' := wh_state (webhook cfg now rnds sig (Some payload) st) in
  exists info,
    map_get (str (generateActivationKey rnds)) (activationKeys st') = Some info /\
    key_chatId info = order_chatId o /\
    key_packageId info = order_packageId o /\
    (forall c p a cur, o = Purchase c p a cur ->
       key_packageId info = p /\ truthy p = true) /\
    (key_packageId info = undefined <->
     exists c u d t, o = Registration c u d t).
Proof.
  intros Rch V Hs R st'. subst st'.
  rewrite (webhook_gate_passed _ _ _ _ _ _ (completed_not_null _ Hs) V).
  apply is_completed_iff in Hs. rewrite Hs, R.
  cbn [negb wh_state activationKeys].
  eexists. split; [apply map_get_set_same, SameValueZero_str |].
  cbn [key_chatId key_packageId].
  split; [reflexivity |]. split; [reflexivity |].
  destruct (reachable_entries_ok cfg st Rch) as [Fo _].
  pose proof (resolve_order_checked _ _ _ _ Fo R) as Ck.
  split.
  - intros c p a cur ->. cbn in *. now split.
  - destruct o as [c u d t | c p a cur]; cbn in *.
    + split; [intros _; now exists c, u, d, t | reflexivity].
    + split.
      * intros E. rewrite E in Ck. discriminate Ck.
      * intros (c' & u & d & t & E). discriminate E.
Qed.

Lemma issued_key_package_witness :
  exists info,
    map_get (str Scenario.key) (activationKeys Scenario.paid) = Some info /\
    key_packageId info = str "pro".
Proof.
  destruct (issued_key_package Scenario.cfg_open "2025-01-01T00:05:00.000Z" Scenario.rnds
              None Scenario.completed Scenario.invoiced
              (Purchase "123" (str "pro") (Some (JNum 10)) (str "USDT")))
    as (info & G & _ & P & _).
  - apply scenario_reachable.
  - reflexivity.
  - reflexivity.
  - reflexivity.
  - exists info. split; [exact G | exact P].
Defined.
